(** * ForgeBot: the per-user transaction flow engine

    A shallow embedding of the validators ([src/utils/validators.ts]), the
    balance, token and allowance readers and the transaction senders
    ([src/lib/token-wallet.ts]), the gas parameter adapter
    ([src/lib/swap.ts]), the handlers of the Buy and Withdraw flows from the
    command to the confirmation, the amount-entry and confirmation handlers
    of Sell, the confirmation of the key export ([src/commands/buy.ts],
    [sell.ts], [withdraw.ts], [import-export.ts]) and the two dispatchers
    ([index.ts]).

    Handlers mutate the session object in place and may throw; they are
    written in a small state-and-exception monad over the session and the
    log of the calls that leave the process.  The functions of the
    JavaScript runtime and of the viem library, and the formatters and
    constants whose files are not among the sources, are Variables of the
    Section that holds the program; the examples at the end run the
    handlers at instances of them.

    Contents: strings, the amount pattern and binary64 rounding; values,
    session and world; the program; its properties; the handlers at
    concrete inputs. *)

From Stdlib Require Import ZArith QArith Ascii String List Bool Lia.
From Stdlib Require Import DecimalString DecimalZ DecimalPos.
From stdpp Require Import base option list gmap strings.

Local Open Scope Z_scope.

(** ** Characters and digit strings *)

Definition is_digit (c : ascii) : bool :=
  ((48 <=? N_of_ascii c) && (N_of_ascii c <=? 57))%N.

Definition digit_value (c : ascii) : Z := Z.of_N (N_of_ascii c) - 48.

(** Value of a string of decimal digits, most significant first. *)
Definition digits_value (l : list ascii) : Z :=
  fold_left (fun acc c => acc * 10 + digit_value c) l 0.

Definition lower_ascii (c : ascii) : ascii :=
  let n := N_of_ascii c in
  if ((65 <=? n) && (n <=? 90))%N then ascii_of_N (n + 32) else c.

(** [String.prototype.toLowerCase] on the ASCII letters; the bytes of any
    other character are kept.  (The characters outside ASCII that lower to
    an ASCII letter give [i] and [k], which occur neither in the word "max"
    nor in a hexadecimal address, the two things compared below.) *)
Definition toLowerCase (s : string) : string :=
  string_of_list_ascii (map lower_ascii (list_ascii_of_string s)).

Definition startsWith (s p : string) : bool := String.prefix p s.

(** [s.replace(p, empty)] for a prefix [p] the caller has already tested. *)
Definition strip_prefix (p s : string) : string :=
  if String.prefix p s
  then String.substring (String.length p) (String.length s - String.length p) s
  else s.

(** ** Regular expressions, as far as [validators.ts] uses them *)

Inductive regex : Type :=
| RDigit                               (* \d *)
| RChar (c : ascii)                    (* a literal character *)
| RSeq (r1 r2 : regex)                 (* r1 r2 *)
| RStar (r : regex)                    (* r* *)
| RRange (lo hi : nat) (r : regex)     (* r{lo,hi} *)
| ROpt (r : regex)                     (* (r)? *)
| RNegLook (r : regex).                (* (?!r) *)

(** Backtracking matchers in continuation-passing style: [m s k] holds when
    the pattern matches a prefix of [s] and [k] accepts the rest.

    [star_loop m k n s] is [r*] for the matcher [m] of [r], with [n] bounding
    the number of iterations; an iteration that consumes nothing is refused,
    as in ECMAScript. *)
Fixpoint star_loop (m : list ascii → (list ascii → bool) → bool)
    (k : list ascii → bool) (n : nat) (s : list ascii) : bool :=
  match n with
  | O => k s
  | S n' => m s (λ s', (length s' <? length s)%nat && star_loop m k n' s') || k s
  end.

(** [range_loop m k lo n seen s] is [r{lo,hi}] after [seen] iterations, with
    [n] more allowed. *)
Fixpoint range_loop (m : list ascii → (list ascii → bool) → bool)
    (k : list ascii → bool) (lo n seen : nat) (s : list ascii) : bool :=
  match n with
  | O => (lo <=? seen)%nat && k s
  | S n' => m s (λ s', range_loop m k lo n' (S seen) s') || ((lo <=? seen)%nat && k s)
  end.

Fixpoint rmatch (r : regex) (s : list ascii) (k : list ascii → bool) {struct r} : bool :=
  match r with
  | RDigit => match s with c :: t => is_digit c && k t | [] => false end
  | RChar a => match s with c :: t => Ascii.eqb a c && k t | [] => false end
  | RSeq r1 r2 => rmatch r1 s (λ s', rmatch r2 s' k)
  | RStar r1 => star_loop (rmatch r1) k (length s) s
  | RRange lo hi r1 => range_loop (rmatch r1) k lo hi O s
  | ROpt r1 => rmatch r1 s k || k s
  | RNegLook r1 => negb (rmatch r1 s (λ _, true)) && k s
  end.

(** The anchor [$]: nothing is left. *)
Definition at_end (rest : list ascii) : bool :=
  match rest with [] => true | _ => false end.

(** [/^r$/.test(s)]: the whole string, no flags. *)
Definition regex_test (r : regex) (s : string) : bool :=
  rmatch r (list_ascii_of_string s) at_end.

(** ** Binary64 numbers, as far as [parseFloat] of an unsigned literal needs them *)

(** A non-negative double: not-a-number, +Infinity, or [m * 2^e]. *)
Inductive float64 : Type :=
| FNaN
| FInf
| FFin (m e : Z).

Definition float_zero : float64 := FFin 0 0.

Definition round_half_even (num den : Z) : Z :=
  let q := num / den in
  let r := num mod den in
  if 2 * r <? den then q
  else if den <? 2 * r then q + 1
  else if Z.even q then q else q + 1.

(** [n / d] scaled by [2^(-e)], as a fraction. *)
Definition scaled (n d e : Z) : Z * Z :=
  if 0 <=? e then (n, d * 2 ^ e) else (n * 2 ^ (- e), d).

(** The double nearest to [n / d] (ties to even), for [0 <= n] and [0 < d]:
    53 bits of mantissa, exponent at least -1074, overflow to +Infinity. *)
Definition b64_of_ratio (n d : Z) : float64 :=
  if n =? 0 then float_zero
  else
    let e0 := Z.log2 n - Z.log2 d - 52 in
    let '(a0, b0) := scaled n d e0 in
    let e1 := if a0 / b0 <? 2 ^ 52 then e0 - 1 else e0 in
    let e := Z.max e1 (-1074) in
    let '(a, b) := scaled n d e in
    let m := round_half_even a b in
    if (0 <=? e) && (2 ^ 1024 <=? m * 2 ^ e) then FInf else FFin m e.

(** [x > y] on numbers; false as soon as one side is NaN. *)
Definition float_gt (x y : float64) : bool :=
  match x, y with
  | FNaN, _ | _, FNaN => false
  | FInf, FInf => false
  | FInf, FFin _ _ => true
  | FFin _ _, FInf => false
  | FFin m1 e1, FFin m2 e2 =>
      let e := Z.min e1 e2 in
      m2 * 2 ^ (e2 - e) <? m1 * 2 ^ (e1 - e)
  end.

(** Splits a string at the end of its leading digits. *)
Fixpoint span_digits (s : list ascii) : list ascii * list ascii :=
  match s with
  | c :: t =>
      if is_digit c then let '(p, r) := span_digits t in (c :: p, r) else ([], s)
  | [] => ([], [])
  end.

(** [parseFloat] on the strings [digits], [digits.digits], [.digits] and
    [digits.] (what an amount can be once the amount pattern accepted it,
    and what a plain decimal rendering of a balance is): the nearest double.
    A string with no digit at all reads as NaN, as in ECMAScript; signs,
    exponents and white space are outside this fragment and read as NaN
    here. *)
Definition parseFloat (s : string) : float64 :=
  let '(ip, rest) := span_digits (list_ascii_of_string s) in
  match rest with
  | [] =>
      match ip with
      | [] => FNaN
      | _ => b64_of_ratio (digits_value ip) 1
      end
  | c :: fp0 =>
      if Ascii.eqb c "."%char then
        let '(fp, rest') := span_digits fp0 in
        match rest', ip ++ fp with
        | [], _ :: _ => b64_of_ratio (digits_value (ip ++ fp)) (10 ^ Z.of_nat (length fp))
        | _, _ => FNaN
        end
      else FNaN
  end.

(** ** validators.ts *)

(** [/^(?!0\d)\d*(\.\d{1,18})?$/] *)
Definition amountRegex : regex :=
  RSeq (RNegLook (RSeq (RChar "0") RDigit))
       (RSeq (RStar RDigit)
             (ROpt (RSeq (RChar ".") (RRange 1 18 RDigit)))).

Definition isValidAmount (amount : string) : bool :=
  regex_test amountRegex amount && float_gt (parseFloat amount) float_zero.

(** *** The amount contract, in the words of the specification *)

Definition all_digits (l : list ascii) : Prop := Forall (λ c, is_digit c = true) l.

(** [s] is the decimal numeral with integer digits [ip] and fractional
    digits [fp]; the point is written exactly when there is a fraction, and
    the integer part may be empty, as in [.5]. *)
Definition decimal_numeral (s : string) (ip fp : list ascii) : Prop :=
  all_digits ip ∧ all_digits fp ∧
  list_ascii_of_string s = ip ++ match fp with [] => [] | _ => "."%char :: fp end.

(** A zero that opens the integer part is the whole integer part. *)
Definition no_redundant_leading_zero (ip : list ascii) : Prop :=
  ∀ t, ip = "0"%char :: t → t = [].

(** The number a numeral denotes, as a fraction. *)
Definition decimal_value (ip fp : list ascii) : Q :=
  Qmake (digits_value (ip ++ fp)) (Z.to_pos (10 ^ Z.of_nat (length fp))).

Definition spec_valid_amount (s : string) : Prop :=
  ∃ ip fp,
    decimal_numeral s ip fp ∧
    no_redundant_leading_zero ip ∧
    (length fp ≤ 18)%nat ∧
    (0 < decimal_value ip fp)%Q.

(** ** JavaScript values and the session (types/commands.ts, types/wallet.ts) *)

(** What a [tempData] slot, typed [any], holds in the flows below. *)
Inductive val : Type :=
| VUndef
| VStr (s : string)
| VNum (n : Z)
| VBig (n : Z).

Definition truthy (v : val) : bool :=
  match v with
  | VUndef => false
  | VStr s => negb (String.eqb s EmptyString)
  | VNum n => negb (n =? 0)
  | VBig n => negb (n =? 0)
  end.

Definition truthy_str (s : string) : bool := negb (String.eqb s EmptyString).

Definition truthy_arg (a : option string) : bool :=
  match a with Some s => truthy_str s | None => false end.

Record UserSettings : Type := {
  slippage : string;       (* the number, as [toString] renders it *)
  gasPriority : string
}.

Record WalletData : Type := { address : string }.

(** [BotState]: the dispatcher's middleware always supplies an object for
    [tempData] ([tempData || {}]) and turns an empty [currentAction] into
    [undefined], here [None] (idle). *)
Record Session : Type := {
  userId : string;
  currentAction : option string;
  tempData : gmap string val;
  settings : option UserSettings
}.

Definition temp (s : Session) (k : string) : val := default VUndef (tempData s !! k).

Record TransactionReceipt : Type := {
  transactionHash : string;
  status : string;
  gasUsed : string;
  effectiveGasPrice : string
}.

Record QuoteData : Type := { outAmount : string; estimatedGas : string }.

Record SwapData : Type := {
  sw_to : string;
  sw_data : string;
  sw_value : string;
  sw_gasPrice : string;
  sw_inAmount : string;
  sw_price_impact : string
}.

Record GasParams : Type := {
  price : string;
  maxFeePerGas : string;
  maxPriorityFeePerGas : string
}.

Record Reply : Type := {
  response : string;
  buttons : option (list (list (string * string)))
}.

Definition say (text : string) : Reply := {| response := text; buttons := None |}.

(** ** The outside world *)

(** Calls that leave the process, in the order they are made. *)
Inductive call : Type :=
| EstimateFeesPerGas
| GetQuote (inToken outToken : val) (amount : string) (gasPrice : val)
| GetSwap (inToken outToken : val) (amount : string) (gasPrice : val)
          (slip : string) (account : val)
| ReadContract (token owner spender : string)
| WriteContract (contract functionName : string) (args : list string)
| SendTransaction (to : val) (data : option string) (value : Z)
                  (fees : list (string * Z))
| SaveTransaction (hash user addr : string) (tokenIn tokenOut amountIn : val)
                  (st : string) (amountOut : val) (gas : string).

(** What the collaborators answer, as a function of the log up to and
    including the call being answered; [None] is a rejected call. *)
Record World : Type := {
  w_estimateFeesPerGas : list call → option (val * val);
  w_getQuote : list call → option (option QuoteData);
  w_getSwap : list call → option SwapData;
  w_readContract : list call → option Z;
  w_writeContract : list call → option TransactionReceipt;
  w_sendTransaction : list call → option TransactionReceipt;
  w_saveTransaction : list call → option unit
}.

(** A logged call, and whether it was answered. *)
Record event : Type := Ev { ev_call : call; ev_ok : bool }.

Record St : Type := { st_session : Session; st_log : list event }.

(** A computation reads the world, updates the session and the log, and
    returns a value or throws ([None]); what it did before throwing stays. *)
Definition M (A : Type) : Type := World → St → option A * St.

#[global] Instance M_ret : MRet M := λ A a _ st, (Some a, st).

#[global] Instance M_bind : MBind M := λ A B f m w st,
  match m w st with
  | (Some a, st') => f a w st'
  | (None, st') => (None, st')
  end.

Definition throw {A} : M A := λ _ st, (None, st).

Definition lift {A} (o : option A) : M A :=
  match o with Some a => mret a | None => throw end.

Definition try_catch {A} (body handler : M A) : M A := λ w st,
  match body w st with
  | (Some a, st') => (Some a, st')
  | (None, st') => handler w st'
  end.

Definition get_session : M Session := λ _ st, (Some (st_session st), st).

Definition put_session (s : Session) : M unit := λ _ st,
  (Some tt, {| st_session := s; st_log := st_log st |}).

Definition set_currentAction (a : option string) : M unit :=
  s ← get_session;
  put_session {| userId := userId s; currentAction := a;
                 tempData := tempData s; settings := settings s |}.

Definition set_tempData (t : gmap string val) : M unit :=
  s ← get_session;
  put_session {| userId := userId s; currentAction := currentAction s;
                 tempData := t; settings := settings s |}.

Definition set_temp (k : string) (v : val) : M unit :=
  s ← get_session; set_tempData (<[k := v]> (tempData s)).

Definition get_temp (k : string) : M val := s ← get_session; mret (temp s k).

(** Asks the world, and logs the call with its outcome. *)
Definition external {A} (c : call) (answer : World → list call → option A) : M A :=
  λ w st,
    let a := answer w (map ev_call (st_log st) ++ [c]) in
    (a, {| st_session := st_session st;
           st_log := st_log st ++ [Ev c (match a with Some _ => true | None => false end)] |}).

(** A method call on a value that must be a string ([x.toLowerCase()]). *)
Definition as_string (v : val) : M string :=
  match v with VStr s => mret s | _ => throw end.

Definition run {A} (m : M A) (w : World) (s : Session) : option A * St :=
  m w {| st_session := s; st_log := [] |}.

Definition is_approval (c : call) : bool :=
  match c with WriteContract _ f _ => String.eqb f "approve" | _ => false end.

Definition is_submission (c : call) : bool :=
  match c with SendTransaction _ _ _ _ => true | _ => false end.

Definition is_record (c : call) : bool :=
  match c with SaveTransaction _ _ _ _ _ _ _ _ _ => true | _ => false end.

Definition count_calls (p : call → bool) (log : list event) : nat :=
  length (filter (λ e, p (ev_call e) = true) log).

(** The calls whose rejection reaches the handler that made them: quote
    retrieval, swap construction, and the submission of an approval, a swap
    or a transfer.  (The fee estimate and the allowance read are made inside
    adapters that catch.) *)
Definition reaches_handler (c : call) : bool :=
  match c with
  | GetQuote _ _ _ _ | GetSwap _ _ _ _ _ _
  | WriteContract _ _ _ | SendTransaction _ _ _ _ => true
  | _ => false
  end.

Definition provider_failed (log : list event) : bool :=
  existsb (λ e, negb (ev_ok e) && reaches_handler (ev_call e)) log.

(** [bigint.toString()] *)
Definition BigInt_toString (z : Z) : string := NilZero.string_of_int (Z.to_int z).

(** The decimal strings of [BigInt(string)]: an optional minus sign and
    digits.  It is the instance at which the examples below run the
    handlers; the handlers themselves take the runtime's [BigInt]. *)
Definition BigInt_decimal (s : string) : option Z :=
  Z.of_int <$> NilZero.int_of_string s.

Definition nl : string := String (ascii_of_nat 10) EmptyString.

(** [String(v)], as a template literal renders a value. *)
Definition show_val (v : val) : string :=
  match v with
  | VUndef => "undefined"
  | VStr s => s
  | VNum n => BigInt_toString n
  | VBig n => BigInt_toString n
  end.

(** [s.replace(/`/g, empty)] *)
Definition strip_backticks (s : string) : string :=
  string_of_list_ascii
    (filter (λ c, Ascii.eqb c "`"%char = false) (list_ascii_of_string s)).

(** The session after a flow ended: idle, nothing carried over. *)
Definition cancelled (s : Session) : Session :=
  {| userId := userId s; currentAction := None; tempData := ∅;
     settings := settings s |}.

(** [s.startsWith(".") ? "0" + s : s] *)
Definition lead_zero (amountInput : string) : string :=
  if startsWith amountInput "." then "0" +:+ amountInput else amountInput.

(** A run that ended the flow with the answer [msg]. *)
Definition aborted (result : option Reply * St) (msg : Reply) : Prop :=
  currentAction (st_session result.2) = None ∧
  tempData (st_session result.2) = ∅ ∧
  result.1 = Some msg.

(** The answers of the catch blocks. *)
Definition trade_error : Reply :=
  say "❌ An error occurred while processing your trade. Please try again later.".

Definition withdrawal_error : Reply := say "❌ An error occurred during withdrawal.".

Definition buy_amount_error : Reply := say "❌ An error occurred. Please try again later.".

Definition clear_flow : M unit :=
  set_currentAction None;; set_tempData ∅.

(** ** validators.ts: private keys *)

Definition is_hex_digit (c : ascii) : bool :=
  let n := N_of_ascii c in
  is_digit c || ((97 <=? n) && (n <=? 102))%N || ((65 <=? n) && (n <=? 70))%N.

(** [/^[0-9a-fA-F]{64}$/.test(s)].  (A character outside ASCII is no
    hexadecimal digit, counted in bytes or in code units.) *)
Definition hex64_test (s : string) : bool :=
  let l := list_ascii_of_string s in
  (length l =? 64)%nat && forallb is_hex_digit l.

(** [s.slice(n)] *)
Definition slice (n : nat) (s : string) : string :=
  String.substring n (String.length s - n) s.

Definition isValidPrivateKey (privateKey : string) : bool :=
  let cleanedKey :=
    if startsWith privateKey "0x" then slice 2 privateKey else privateKey in
  hex64_test cleanedKey.

(** ** lib/token-wallet.ts: token descriptions *)

Record TokenInfo : Type := {
  ti_address : string;
  ti_symbol : string;
  ti_decimals : Z;
  ti_balance : string
}.

Definition upper_ascii (c : ascii) : ascii :=
  let n := N_of_ascii c in
  if ((97 <=? n) && (n <=? 122))%N then ascii_of_N (n - 32) else c.

(** [String.prototype.toUpperCase] on the ASCII letters, the only ones in
    the symbols of the token list. *)
Definition toUpperCase (s : string) : string :=
  string_of_list_ascii (map upper_ascii (list_ascii_of_string s)).

(** ** Readings of an event log *)

Definition is_allowance_read (c : call) : bool :=
  match c with ReadContract _ _ _ => true | _ => false end.

(** No transaction is recorded before a submission has been answered with a
    receipt; [seen] tells whether one has been so far. *)
Fixpoint records_follow_receipts (seen : bool) (log : list event) : bool :=
  match log with
  | [] => true
  | e :: rest =>
      if is_record (ev_call e)
      then seen && records_follow_receipts seen rest
      else records_follow_receipts
             (seen || (is_submission (ev_call e) && ev_ok e)) rest
  end.

(** At most one submission, at most one record, and no record without a
    receipt before it. *)
Definition submits_once (log : list event) : Prop :=
  (count_calls is_submission log ≤ 1)%nat ∧
  (count_calls is_record log ≤ 1)%nat ∧
  records_follow_receipts false log = true.

(** The labels of the [switch] in the action route. *)
Definition action_cases : list string :=
  ["/start"; "/help"; "/buy"; "/sell"; "/wallet"; "/balance"; "/history";
   "/settings"; "/deposit"; "/withdraw"; "/create"; "/import"; "/export";
   "/cancel"; "import_wallet"; "buy_custom_token"; "buy_amount";
   "sell_custom_token"; "sell_amount"; "withdraw_address"; "withdraw_amount"].

(** ** Instances of the external functions, for the examples *)

(** [fraction.replace(/(0+)$/, empty)] *)
Fixpoint strip_trailing_zeros (l : list ascii) : list ascii :=
  match l with
  | [] => []
  | c :: t =>
      match strip_trailing_zeros t with
      | [] => if Ascii.eqb c "0"%char then [] else [c]
      | t' => c :: t'
      end
  end.

(** viem's [formatUnits] on a bigint and a number of decimals. *)
Definition viem_formatUnits (value decimals : val) : option string :=
  match value, decimals with
  | VBig n, VNum d =>
      let display := list_ascii_of_string (BigInt_toString (Z.abs n)) in
      let padded := repeat "0"%char (Z.to_nat d - length display) ++ display in
      let cut := (length padded - Z.to_nat d)%nat in
      let integer := take cut padded in
      let fraction := strip_trailing_zeros (drop cut padded) in
      Some (string_of_list_ascii
              ((if n <? 0 then ["-"%char] else [])
               ++ match integer with [] => ["0"%char] | _ => integer end
               ++ match fraction with [] => [] | _ => "."%char :: fraction end))
  | _, _ => None
  end.

(** viem's [parseUnits] on an unsigned decimal whose fraction, trailing
    zeros apart, fits the decimals.  A longer fraction, which viem rounds,
    a sign and a malformed string are all [None] here: the examples stay
    within the exact inputs. *)
Definition viem_parseUnits (value : string) (decimals : val) : option Z :=
  match decimals with
  | VNum d =>
      let '(ip, rest) := span_digits (list_ascii_of_string value) in
      fp ← match rest with
           | [] => Some []
           | c :: fp0 =>
               if Ascii.eqb c "."%char
               then let '(fp, rest') := span_digits fp0 in
                    match rest' with [] => Some fp | _ => None end
               else None
           end;
      let fraction := strip_trailing_zeros fp in
      if (length fraction <=? Z.to_nat d)%nat
      then Some (digits_value
                   (ip ++ fraction ++ repeat "0"%char (Z.to_nat d - length fraction)))
      else None
  | _ => None
  end.

(** A balance formatter that renders every digit: [formatEther]. *)
Definition exact_formatEthBalance (balance : val) : option string :=
  match balance with
  | VStr s => n ← BigInt_decimal s; viem_formatUnits (VBig n) (VNum 18)
  | _ => None
  end.

Definition plain_details (fromSymbol toSymbol : val)
    (fromAmount toAmount priority slip : string) : option string :=
  Some (fromAmount +:+ " " +:+ show_val fromSymbol +:+ " -> "
        +:+ toAmount +:+ " " +:+ show_val toSymbol).

Definition plain_confirmation (amountWei toAddress : string) : option string :=
  Some (amountWei +:+ " wei to " +:+ toAddress).

Definition native_address : string := "0xEeeeeEeeeEeEeeEeEeEeeEEEeeeeEeeeeeeeEEeE".

Definition max_uint256 : string := BigInt_toString (2 ^ 256 - 1).

Definition a_receipt (st : string) : TransactionReceipt :=
  {| transactionHash := "0xabc"; status := st; gasUsed := "21000";
     effectiveGasPrice := "1000000000" |}.

Definition a_swap (inAmount : string) : SwapData :=
  {| sw_to := "0x6352a56caadC4F1E25CD6c75970Fa768A3304e64"; sw_data := "0x";
     sw_value := "0"; sw_gasPrice := "1000000000"; sw_inAmount := inAmount;
     sw_price_impact := "-0.1%" |}.

(** A world in which every collaborator answers; the fee estimate, the
    allowance before and after an approval, and the status of receipts are
    the parameters. *)
Definition calm_world (fee : option Z) (allowance0 allowance1 : option Z)
    (inAmount st : string) : World :=
  {| w_estimateFeesPerGas := λ _, f ← fee; Some (VBig f, VBig (f / 10));
     w_getQuote := λ _, Some (Some {| outAmount := "750000000"; estimatedGas := "150000" |});
     w_getSwap := λ _, Some (a_swap inAmount);
     w_readContract := λ log,
       if existsb is_approval log then allowance1 else allowance0;
     w_writeContract := λ _, Some (a_receipt "success");
     w_sendTransaction := λ _, Some (a_receipt st);
     w_saveTransaction := λ _, Some tt |}.

Definition a_wallet : WalletData :=
  {| address := "0x1111111111111111111111111111111111111111" |}.

Definition a_session (action : string) (data : list (string * val)) : Session :=
  {| userId := "42"; currentAction := Some action;
     tempData := list_to_map data;
     settings := Some {| slippage := "1"; gasPriority := "medium" |} |}.

Definition usdc : string := "0x833589fCD6eDb6E08f4c7C32D4f71b54bdA02913".

(** A session at Withdraw amount entry with the given balance in wei. *)
Definition withdraw_entry (balance : string) : Session :=
  a_session "withdraw_amount"
    [("from", VStr (address a_wallet)); ("balance", VStr balance);
     ("to", VStr "0x2222222222222222222222222222222222222222")].

(** A session at Sell amount entry and at Sell confirmation, for USDC. *)
Definition sell_entry (tokenBalance : string) : Session :=
  a_session "sell_amount"
    [("toToken", VStr native_address); ("toSymbol", VStr "ETH"); ("toDecimals", VNum 18);
     ("walletAddress", VStr (address a_wallet)); ("fromToken", VStr usdc);
     ("fromSymbol", VStr "USDC"); ("fromDecimals", VNum 6);
     ("tokenBalance", VStr tokenBalance)].

Definition sell_confirming (fromAmount : string) : Session :=
  a_session "sell_confirm"
    [("toToken", VStr native_address); ("toSymbol", VStr "ETH"); ("toDecimals", VNum 18);
     ("walletAddress", VStr (address a_wallet)); ("fromToken", VStr usdc);
     ("fromSymbol", VStr "USDC"); ("fromDecimals", VNum 6);
     ("tokenBalance", VStr "1000000"); ("fromAmount", VStr fromAmount);
     ("gasPrice", VStr "0.1"); ("toAmount", VStr "750000000")].

(** A session at Buy amount entry with the given balance in wei, and at Buy
    confirmation. *)
Definition buy_entry (balance : string) : Session :=
  a_session "buy_amount"
    [("fromToken", VStr native_address); ("fromSymbol", VStr "ETH");
     ("fromDecimals", VNum 18); ("walletAddress", VStr (address a_wallet));
     ("balance", VStr balance); ("toToken", VStr usdc); ("toSymbol", VStr "USDC");
     ("toDecimals", VNum 6)].

Definition buy_confirming : Session :=
  a_session "buy_confirm"
    [("fromToken", VStr native_address); ("fromSymbol", VStr "ETH");
     ("fromDecimals", VNum 18); ("walletAddress", VStr (address a_wallet));
     ("balance", VStr "2000000000000000000"); ("toToken", VStr usdc);
     ("toSymbol", VStr "USDC"); ("toDecimals", VNum 6);
     ("fromAmount", VStr "500000000000000000"); ("gasPrice", VStr "0.1");
     ("toAmount", VStr "750000000")].

Definition withdraw_confirming : Session :=
  a_session "withdraw_confirm"
    [("from", VStr (address a_wallet)); ("balance", VStr "100000000000000");
     ("to", VStr "0x2222222222222222222222222222222222222222");
     ("amount", VStr "10000000000000"); ("maxFeePerGas", VStr "1000000000");
     ("maxPriorityFeePerGas", VStr "100000000")].

(** A world whose swap service is down. *)
Definition no_swap_world : World :=
  {| w_estimateFeesPerGas := λ _, None;
     w_getQuote := λ _, None;
     w_getSwap := λ _, None;
     w_readContract := λ _, None;
     w_writeContract := λ _, None;
     w_sendTransaction := λ _, None;
     w_saveTransaction := λ _, Some tt |}.

(** The reads of the chain, for the examples: every address holds [b] wei,
    and every token contract answers the same symbol and decimals. *)
Definition funded_chain (b : Z) : string → option Z := λ _, Some b.

Definition token_symbol_is (symbol : string) : string → option string :=
  λ _, Some symbol.

Definition token_decimals_are (decimals : Z) : string → option Z :=
  λ _, Some decimals.

(** An address check for the examples: 0x and forty hexadecimal digits,
    without viem's checksum. *)
Definition plain_isAddress (s : string) : bool :=
  let l := list_ascii_of_string (slice 2 s) in
  startsWith s "0x" && (length l =? 40)%nat && forallb is_hex_digit l.

Definition listed_tokens (symbol : string) : option string :=
  if String.eqb symbol "USDC" then Some usdc else None.

(** A stand-in for the handlers that are not modelled: it answers its name. *)
Definition quiet_handler (name : string) (wallet : option WalletData)
    (args : option string) : M Reply :=
  mret (say name).

Definition idle_session : Session :=
  {| userId := "42"; currentAction := None; tempData := ∅;
     settings := Some {| slippage := "1"; gasPriority := "medium" |} |}.

(** A session at the address step of Withdraw. *)
Definition withdraw_addressing : Session :=
  a_session "withdraw_address"
    [("from", VStr (address a_wallet)); ("balance", VStr "100000000000000")].

(** A Sell confirmation for the native token, written in lower case. *)
Definition sell_native_confirming : Session :=
  a_session "sell_confirm"
    [("toToken", VStr usdc); ("toSymbol", VStr "USDC"); ("toDecimals", VNum 6);
     ("walletAddress", VStr (address a_wallet));
     ("fromToken", VStr "0xeeeeeeeeeeeeeeeeeeeeeeeeeeeeeeeeeeeeeeee");
     ("fromSymbol", VStr "ETH"); ("fromDecimals", VNum 18);
     ("fromAmount", VStr "500000000000000000"); ("gasPrice", VStr "0.1");
     ("toAmount", VStr "750000000")].

(** A world in which the approval is mined and reverts. *)
Definition reverted_approval_world : World :=
  {| w_estimateFeesPerGas := λ _, None;
     w_getQuote := λ _, None;
     w_getSwap := λ _, Some (a_swap "500");
     w_readContract := λ _, Some 0;
     w_writeContract := λ _, Some (a_receipt "reverted");
     w_sendTransaction := λ _, Some (a_receipt "success");
     w_saveTransaction := λ _, Some tt |}.

(** ** The program *)

Section Bot.

(** The runtime's [BigInt(string)]; [None] is the SyntaxError. *)
Variable BigInt : string → option Z.

(** viem: [parseUnits(value, decimals)] and [formatUnits(value, decimals)],
    called on values of any type; [None] is a thrown error. *)
Variable parseUnits : string → val → option Z.
Variable formatUnits : val → val → option string.

(** utils/formatters.ts, absent from the sources at hand. *)
Variable formatEthBalance : val → option string.
Variable formatTransactionDetails :
  val → val → string → string → string → string → option string.
Variable formatWithdrawalConfirmation : string → string → option string.

(** utils/constants.ts, absent from the sources at hand. *)
Variable NATIVE_TOKEN_ADDRESS : string.
Variable MAX_UINT256 : string.

(** Handlers of index.ts whose files are not modelled, by name. *)
Variable otherHandler : string → option WalletData → option string → M Reply.

Definition parseEther (s : string) : option Z := parseUnits s (VNum 18).
Definition parseGwei (s : string) : option Z := parseUnits s (VNum 9).

(** [BigInt(x)] on a value of any type. *)
Definition BigInt_of (v : val) : option Z :=
  match v with
  | VStr s => BigInt s
  | VNum n => Some n
  | VBig n => Some n
  | VUndef => None
  end.

(** *** validators.ts: hasEnoughBalance *)

(** The third argument defaults to "0" at the call. *)
Definition hasEnoughBalance (balance amount gasEstimate : string) : bool :=
  match
    (balanceBigInt ← BigInt balance;
     amountBigInt ← BigInt amount;
     gasEstimateBigInt ← BigInt gasEstimate;
     Some (balanceBigInt >=? amountBigInt + gasEstimateBigInt))
  with
  | Some b => b
  | None => false           (* catch (error) { ...; return false } *)
  end.

(** *** lib/token-wallet.ts *)

Definition getTokenAllowance (tokenAddress ownerAddress spenderAddress : string)
  : M string :=
  try_catch
    (if String.eqb (toLowerCase tokenAddress) (toLowerCase NATIVE_TOKEN_ADDRESS)
     then mret MAX_UINT256
     else
       allowance ← external (ReadContract tokenAddress ownerAddress spenderAddress)
                            w_readContract;
       mret (BigInt_toString allowance))
    (mret "0").

Definition normal_receipt (r : TransactionReceipt) : TransactionReceipt :=
  {| transactionHash := transactionHash r;
     status := if String.eqb (status r) "success" then "success" else "failure";
     gasUsed := gasUsed r;
     effectiveGasPrice := effectiveGasPrice r |}.

(** The three senders below first build an account and a client from the
    wallet; that step is folded into the call that leaves the process. *)
Definition executeContractMethod (contractAddress functionName : string)
    (args : list string) : M TransactionReceipt :=
  receipt ← external (WriteContract contractAddress functionName args) w_writeContract;
  mret (normal_receipt receipt).

Definition executeTransaction (to data value gasPrice : string)
  : M TransactionReceipt :=
  v ← lift (BigInt (if truthy_str value then value else "0"));
  g ← lift (BigInt gasPrice);
  receipt ← external (SendTransaction (VStr to) (Some data) v [("gasPrice", g)])
                     w_sendTransaction;
  mret (normal_receipt receipt).

Definition withdrawEth (to amount maxFee maxPriorityFee : val)
  : M TransactionReceipt :=
  v ← lift (BigInt_of amount);
  fees ← (if truthy maxFee && truthy maxPriorityFee
          then
            f ← lift (BigInt_of maxFee);
            p ← lift (BigInt_of maxPriorityFee);
            mret [("maxFeePerGas", f); ("maxPriorityFeePerGas", p)]
          else mret []);
  receipt ← external (SendTransaction to None v fees) w_sendTransaction;
  mret (normal_receipt receipt).

(** lib/database.ts, absent from the sources at hand: a write that fails is
    taken to throw to its caller. *)
Definition saveTransaction (hash user addr : string) (tokenIn tokenOut amountIn : val)
    (st : string) (amountOut : val) (gas : string) : M unit :=
  external (SaveTransaction hash user addr tokenIn tokenOut amountIn st amountOut gas)
           w_saveTransaction.

(** *** lib/swap.ts *)

Definition getQuote (inToken outToken : val) (amount : string) (gasPrice : val)
  : M (option QuoteData) :=
  external (GetQuote inToken outToken amount gasPrice) w_getQuote.

Definition getSwap (inToken outToken : val) (amount : string) (gasPrice : val)
    (slip : string) (account : val) : M SwapData :=
  external (GetSwap inToken outToken amount gasPrice slip account) w_getSwap.

Definition fallback_gas : GasParams :=
  {| price := "0.1"; maxFeePerGas := "0.1"; maxPriorityFeePerGas := "0.05" |}.

Definition getGasParams (priority : string) : M GasParams :=
  try_catch
    ('(maxFee, maxPriorityFee) ← external EstimateFeesPerGas w_estimateFeesPerGas;
     priceInGwei ← lift (formatUnits maxFee (VNum 9));
     fee ← lift (formatUnits maxFee (VNum 9));
     tip ← lift (formatUnits maxPriorityFee (VNum 9));
     mret {| price := priceInGwei; maxFeePerGas := fee; maxPriorityFeePerGas := tip |})
    (mret fallback_gas).

Definition settings_gasPriority (s : Session) : string :=
  match settings s with
  | Some u => if truthy_str (gasPriority u) then gasPriority u else "medium"
  | None => "medium"
  end.

Definition settings_slippage (s : Session) : string :=
  match settings s with
  | Some u => if truthy_str (slippage u) then slippage u else "1.0"
  | None => "1.0"
  end.

(** The swap request of a confirmation, for an amount already formatted. *)
Definition swap_call (s : Session) (amount : string) : call :=
  GetSwap (temp s "fromToken") (temp s "toToken") amount (temp s "gasPrice")
          (settings_slippage s) (temp s "walletAddress").

Definition confirm_buttons : option (list (list (string * string))) :=
  Some [[("✅ Confirm", "confirm_yes"); ("❌ Cancel", "confirm_no")]].

(** *** commands/withdraw.ts *)

Definition handleWithdrawAmount (wallet : option WalletData) (args : option string)
  : M Reply :=
  try_catch
    (session ← get_session;
     if negb (truthy_str (userId session)) || negb (truthy_arg args)
     then mret (say "❌ Invalid request.")
     else
       let amountInput := default EmptyString args in
       match tempData session !! "balance", tempData session !! "to" with
       | Some (VStr balance), Some (VStr toAddress) =>
           if negb (isValidAmount amountInput)
           then mret (say "❌ Invalid amount format.")
           else
             let cleanAmount := lead_zero amountInput in
             parsed ← lift (parseEther cleanAmount);
             let amountWei := BigInt_toString parsed in
             b ← lift (BigInt balance);
             a ← lift (BigInt amountWei);
             if b <? a
             then
               shown ← lift (formatEthBalance (VStr balance));
               mret (say ("❌ Insufficient balance. You have " +:+ shown +:+ " ETH."))
             else
               gasParams ← getGasParams (settings_gasPriority session);
               let gasLimit := 21000 in
               maxFeePerGasWei ← lift (parseGwei (maxFeePerGas gasParams));
               let gasCost := maxFeePerGasWei * gasLimit in
               b ← lift (BigInt balance);
               a ← lift (BigInt amountWei);
               if b <=? a + gasCost
               then mret (say "❌ Insufficient balance for amount + gas.")
               else
                 set_temp "amount" (VStr amountWei);;
                 set_temp "maxFeePerGas" (VStr (BigInt_toString maxFeePerGasWei));;
                 tip ← lift (parseGwei (maxPriorityFeePerGas gasParams));
                 set_temp "maxPriorityFeePerGas" (VStr (BigInt_toString tip));;
                 set_currentAction (Some "withdraw_confirm");;
                 text ← lift (formatWithdrawalConfirmation amountWei toAddress);
                 mret {| response := text;
                         buttons := Some [[("Confirm", "withdraw_confirm_true");
                                           ("Cancel", "withdraw_confirm_false")]] |}
       | _, _ =>
           set_currentAction None;;
           mret (say "❌ Session expired. Please start with /withdraw again.")
       end)
    (mret (say "❌ An error occurred.")).

Definition handleWithdrawConfirmation (wallet : option WalletData) (confirmed : bool)
  : M Reply :=
  try_catch
    (if negb confirmed
     then clear_flow;; mret (say "Withdrawal cancelled.")
     else
       session ← get_session;
       match wallet with
       | Some w =>
           if negb (truthy_str (userId session))
           then mret (say "❌ Session or wallet not found. Please start over.")
           else
             let from := temp session "from" in
             let to := temp session "to" in
             let amount := temp session "amount" in
             if negb (truthy from) || negb (truthy to) || negb (truthy amount)
             then mret (say "❌ Missing transaction details in session. Please start over.")
             else
               receipt ← withdrawEth to amount (temp session "maxFeePerGas")
                                     (temp session "maxPriorityFeePerGas");
               saveTransaction (transactionHash receipt) (userId session) (address w)
                               (VStr NATIVE_TOKEN_ADDRESS) to amount (status receipt)
                               (VStr "0") (gasUsed receipt);;
               clear_flow;;
               if String.eqb (status receipt) "success"
               then
                 g ← lift (BigInt (gasUsed receipt));
                 p ← lift (BigInt (effectiveGasPrice receipt));
                 let gasCost := g * p in
                 shown ← lift (formatEthBalance amount);
                 mret (say ("✅ Withdrawal Successful!" +:+ nl +:+ "Amount: " +:+ shown
                            +:+ " ETH" +:+ nl +:+ "To: " +:+ show_val to +:+ nl
                            +:+ "Tx: https://basescan.org/tx/" +:+ transactionHash receipt))
               else
                 mret (say ("❌ Withdrawal Failed." +:+ nl
                            +:+ "Tx: https://basescan.org/tx/" +:+ transactionHash receipt))
       | None => mret (say "❌ Session or wallet not found. Please start over.")
       end)
    (clear_flow;; mret withdrawal_error).

(** *** commands/sell.ts *)

Definition handleSellAmountLogic (wallet : option WalletData) (amountInUnits : val)
  : M Reply :=
  try_catch
    (match wallet with
     | None => mret (say "❌ Wallet not found. Please create or import a wallet first.")
     | Some _ =>
         session ← get_session;
         let fromToken := temp session "fromToken" in
         let toToken := temp session "toToken" in
         let fromSymbol := temp session "fromSymbol" in
         let toSymbol := temp session "toSymbol" in
         let fromDecimals := temp session "fromDecimals" in
         set_temp "fromAmount" amountInUnits;;
         gasParams ← getGasParams (settings_gasPriority session);
         set_temp "gasPrice" (VStr (price gasParams));;
         set_temp "maxFeePerGas" (VStr (maxFeePerGas gasParams));;
         set_temp "maxPriorityFeePerGas" (VStr (maxPriorityFeePerGas gasParams));;
         units ← lift (BigInt_of amountInUnits);
         amountInput ← lift (formatUnits (VBig units) fromDecimals);
         let selectedSlippage := settings_slippage session in
         let selectedGasPriority := settings_gasPriority session in
         gasPrice ← get_temp "gasPrice";
         quote ← getQuote fromToken toToken amountInput gasPrice;
         data ← lift quote;
         set_temp "toAmount" (VStr (outAmount data));;
         set_temp "estimatedGas" (VStr (estimatedGas data));;
         let fromAmount := amountInput in
         toAmount ← lift (formatEthBalance (VStr (outAmount data)));
         set_currentAction (Some "sell_confirm");;
         text ← lift (formatTransactionDetails fromSymbol toSymbol fromAmount toAmount
                                               selectedGasPriority selectedSlippage);
         mret {| response := text; buttons := confirm_buttons |}
     end)
    (mret (say "❌ An error occurred while getting the quote. Please try again later.")).

Definition handleSellAmountInput (wallet : option WalletData) (args : option string)
  : M Reply :=
  try_catch
    (session ← get_session;
     if negb (truthy_str (userId session)) || negb (truthy_arg args)
     then mret (say "❌ Invalid request. Please try again.")
     else
       let fromSymbol := temp session "fromSymbol" in
       let fromDecimals := temp session "fromDecimals" in
       let tokenBalance := temp session "tokenBalance" in
       let amountInput := default EmptyString args in
       if String.eqb (toLowerCase amountInput) "max"
       then handleSellAmountLogic wallet tokenBalance
       else if negb (isValidAmount amountInput)
       then mret (say ("❌ Invalid amount format. Please enter a positive number."
                       +:+ nl +:+ nl +:+ "Try again or type /cancel to abort."))
       else
         let amountInput := lead_zero amountInput in
         parsed ← lift (parseUnits amountInput fromDecimals);
         let amountInUnits := BigInt_toString parsed in
         a ← lift (BigInt amountInUnits);
         b ← lift (BigInt_of tokenBalance);
         if b <? a
         then
           formattedBalance ← lift (formatUnits (VBig b) fromDecimals);
           mret (say ("❌ Insufficient balance. You only have " +:+ formattedBalance
                      +:+ " " +:+ show_val fromSymbol +:+ " available." +:+ nl +:+ nl
                      +:+ "Please enter a smaller amount or type /cancel to abort."))
         else handleSellAmountLogic wallet (VStr amountInUnits))
    (mret (say "❌ An error occurred. Please try again later.")).

Definition handleSellConfirmation (wallet : option WalletData) (confirmed : bool)
  : M Reply :=
  try_catch
    (if negb confirmed
     then clear_flow;; mret (say "Trade cancelled.")
     else
       session ← get_session;
       if negb (truthy_str (userId session))
       then mret (say "❌ Session expired. Please use /start to begin again.")
       else
         match wallet with
         | None => mret (say "❌ Wallet not found. Please create or import a wallet first.")
         | Some w =>
             let fromToken := temp session "fromToken" in
             let toToken := temp session "toToken" in
             let fromAmount := temp session "fromAmount" in
             let fromDecimals := temp session "fromDecimals" in
             let fromSymbol := temp session "fromSymbol" in
             let walletAddress := temp session "walletAddress" in
             let gasPrice := temp session "gasPrice" in
             let slip := settings_slippage session in
             units ← lift (BigInt_of fromAmount);
             formattedFromAmount ← lift (formatUnits (VBig units) fromDecimals);
             swap ← getSwap fromToken toToken formattedFromAmount gasPrice slip
                            walletAddress;
             token ← as_string fromToken;
             approved ←
               (if negb (String.eqb (toLowerCase token) (toLowerCase NATIVE_TOKEN_ADDRESS))
                then
                  allowance ← getTokenAllowance token (address w) (sw_to swap);
                  have ← lift (BigInt allowance);
                  need ← lift (BigInt (sw_inAmount swap));
                  if have <? need
                  then
                    receipt ← executeContractMethod token "approve"
                                                    [sw_to swap; MAX_UINT256];
                    if negb (String.eqb (status receipt) "success")
                    then
                      mret (Some (say ("❌ Approval Failed" +:+ nl +:+ nl
                        +:+ "Unable to approve token spending." +:+ nl
                        +:+ "View on Block Explorer: https://basescan.org/tx/"
                        +:+ transactionHash receipt)))
                    else
                      newAllowance ← getTokenAllowance token (address w) (sw_to swap);
                      have' ← lift (BigInt newAllowance);
                      need' ← lift (BigInt_of fromAmount);
                      if have' <? need'
                      then mret (Some (say "❌ Token approval failed. Please try again later."))
                      else mret None
                  else mret None
                else mret None);
             match approved with
             | Some early => mret early
             | None =>
                 receipt ← executeTransaction (sw_to swap) (sw_data swap) (sw_value swap)
                                              (sw_gasPrice swap);
                 toAmount ← get_temp "toAmount";
                 saveTransaction (transactionHash receipt) (userId session) (address w)
                                 fromToken toToken fromAmount (status receipt) toAmount
                                 (gasUsed receipt);;
                 if String.eqb (status receipt) "success"
                 then
                   units' ← lift (BigInt_of fromAmount);
                   sold ← lift (formatUnits (VBig units') fromDecimals);
                   toAmount' ← get_temp "toAmount";
                   got ← lift (formatEthBalance toAmount');
                   mret (say ("✅ Transaction Successful" +:+ nl +:+ nl +:+ "You sold "
                     +:+ sold +:+ " " +:+ show_val fromSymbol +:+ nl +:+ "You received "
                     +:+ got +:+ " ETH" +:+ nl +:+ "Price impact: "
                     +:+ sw_price_impact swap +:+ nl
                     +:+ "View on Block Explorer: https://basescan.org/tx/"
                     +:+ transactionHash receipt))
                 else
                   mret (say ("❌ Transaction Failed" +:+ nl +:+ nl
                     +:+ "View on Block Explorer: https://basescan.org/tx/"
                     +:+ transactionHash receipt))
             end
         end)
    (clear_flow;; mret trade_error).

(** *** commands/buy.ts *)

(** [amount > parseFloat(formatEthBalance(balance))], the balance already
    rendered by the formatter. *)
Definition buy_exceeds_balance (amountInput shown : string) : bool :=
  float_gt (parseFloat amountInput) (parseFloat shown).

Definition handleBuyAmountInput (wallet : option WalletData) (args : option string)
  : M Reply :=
  try_catch
    (session ← get_session;
     if negb (truthy_str (userId session)) || negb (truthy_arg args)
     then mret (say "❌ Invalid request. Please try again.")
     else if negb (truthy (temp session "toToken"))
             || negb (truthy (temp session "toSymbol"))
             || negb (truthy (temp session "toDecimals"))
             || negb (truthy (temp session "walletAddress"))
             || negb (truthy (temp session "balance"))
     then clear_flow;; mret (say "❌ Invalid session state. Please restart with /buy.")
     else
       match wallet with
       | None =>
           clear_flow;;
           mret (say "❌ Wallet not found. Please create or import a wallet and restart with /buy.")
       | Some _ =>
           let input := default EmptyString args in
           if negb (isValidAmount input)
           then mret (say ("❌ Invalid amount format. Please enter a positive number (e.g., 0.0000002)."
                           +:+ nl +:+ nl +:+ "Try again or type /cancel to abort."))
           else
             let amountInput := lead_zero input in
             let balance := temp session "balance" in
             shown ← lift (formatEthBalance balance);
             if buy_exceeds_balance amountInput shown
             then
               shown' ← lift (formatEthBalance balance);
               mret (say ("❌ Insufficient balance. You only have " +:+ shown'
                          +:+ " ETH available." +:+ nl +:+ nl
                          +:+ "Please enter a smaller amount or type /cancel to abort."))
             else
               parsed ← lift (parseEther amountInput);
               let amountWei := BigInt_toString parsed in
               set_temp "fromAmount" (VStr amountWei);;
               gasParams ← getGasParams (settings_gasPriority session);
               set_temp "gasPrice" (VStr (price gasParams));;
               set_temp "maxFeePerGas" (VStr (maxFeePerGas gasParams));;
               set_temp "maxPriorityFeePerGas" (VStr (maxPriorityFeePerGas gasParams));;
               let selectedSlippage := settings_slippage session in
               let selectedGasPriority := settings_gasPriority session in
               gasPrice ← get_temp "gasPrice";
               quote ← getQuote (temp session "fromToken") (temp session "toToken")
                                amountInput gasPrice;
               match quote with
               | None => mret (say "❌ Failed to fetch swap quote. Please try again.")
               | Some data =>
                   set_temp "toAmount" (VStr (outAmount data));;
                   set_temp "estimatedGas" (VStr (estimatedGas data));;
                   fromAmount ← lift (formatEthBalance (VStr amountWei));
                   out ← lift (BigInt (outAmount data));
                   toAmount ← lift (formatUnits (VBig out) (temp session "toDecimals"));
                   set_currentAction (Some "buy_confirm");;
                   text ← lift (formatTransactionDetails
                                  (temp session "fromSymbol") (temp session "toSymbol")
                                  fromAmount toAmount selectedGasPriority selectedSlippage);
                   mret {| response := text; buttons := confirm_buttons |}
               end
       end)
    (clear_flow;; mret buy_amount_error).

Definition handleBuyConfirmation (wallet : option WalletData) (confirmed : bool)
  : M Reply :=
  try_catch
    (if negb confirmed
     then clear_flow;; mret (say "Trade cancelled.")
     else
       session ← get_session;
       if negb (truthy_str (userId session))
       then mret (say "❌ Session expired. Please use /start to begin again.")
       else
         match wallet with
         | None => mret (say "❌ Wallet not found. Please create or import a wallet first.")
         | Some w =>
             let fromToken := temp session "fromToken" in
             let toToken := temp session "toToken" in
             let fromAmount := temp session "fromAmount" in
             let fromDecimals := temp session "fromDecimals" in
             let walletAddress := temp session "walletAddress" in
             let gasPrice := temp session "gasPrice" in
             let slip := settings_slippage session in
             units ← lift (BigInt_of fromAmount);
             formattedFromAmount ← lift (formatUnits (VBig units) fromDecimals);
             swap ← getSwap fromToken toToken formattedFromAmount gasPrice slip
                            walletAddress;
             receipt ← executeTransaction (sw_to swap) (sw_data swap) (sw_value swap)
                                          (sw_gasPrice swap);
             toAmount ← get_temp "toAmount";
             saveTransaction (transactionHash receipt) (userId session) (address w)
                             fromToken toToken fromAmount (status receipt) toAmount
                             (gasUsed receipt);;
             clear_flow;;
             if String.eqb (status receipt) "success"
             then
               toAmount' ← get_temp "toAmount";
               toDecimals ← get_temp "toDecimals";
               bought ← lift (formatUnits toAmount' toDecimals);
               toSymbol ← get_temp "toSymbol";
               mret (say (strip_backticks
                 ("✅ Transaction Successful" +:+ nl +:+ nl +:+ "You bought " +:+ bought
                  +:+ " " +:+ show_val toSymbol +:+ nl +:+ "Price impact: "
                  +:+ sw_price_impact swap +:+ nl
                  +:+ "View on Block Explorer: https://basescan.org/tx/"
                  +:+ transactionHash receipt)))
             else
               mret (say (strip_backticks
                 ("❌ Transaction Failed" +:+ nl +:+ nl
                  +:+ "View on Block Explorer: https://basescan.org/tx/"
                  +:+ transactionHash receipt)))
         end)
    (clear_flow;; mret trade_error).

(** *** What a confirmed trade submits

    The transaction the swap service built for the amount and the tokens of
    the session, with the value and the gas price of the service's answer. *)
Definition submits_the_swap (w : World) (s : Session) (c : call) : Prop :=
  ∃ units amount swap v g,
    BigInt_of (temp s "fromAmount") = Some units ∧
    formatUnits (VBig units) (temp s "fromDecimals") = Some amount ∧
    w_getSwap w [swap_call s amount] = Some swap ∧
    BigInt (if truthy_str (sw_value swap) then sw_value swap else "0") = Some v ∧
    BigInt (sw_gasPrice swap) = Some g ∧
    c = SendTransaction (VStr (sw_to swap)) (Some (sw_data swap)) v [("gasPrice", g)].

(** *** Reads of the chain and of the key store

    What viem's public client answers to a read ([None]: the call was
    rejected), viem's [isAddress], and the modules of the repository that
    are absent from the sources at hand: the token list of
    utils/constants.ts, by symbol, and lib/encryption.ts ([decrypt wallet]
    is [decrypt(wallet.encryptedPrivateKey)]).  None of them reads or
    changes the session. *)
Variable chain_getBalance : string → option Z.
Variable chain_symbol : string → option string.
Variable chain_decimals : string → option Z.
Variable isAddress : string → bool.
Variable COMMON_TOKENS : string → option string.
Variable verifyEncryptionKey : bool.
Variable decrypt : WalletData → option string.

(** *** validators.ts: isValidAddress *)

Definition isValidAddress (addr : string) : bool := isAddress addr.

(** *** lib/token-wallet.ts: balances, token descriptions, the stored key *)

Definition getEthBalance (addr : string) : string :=
  match chain_getBalance addr with
  | Some balance => BigInt_toString balance
  | None => "0"                          (* catch (error) { ...; return "0" } *)
  end.

Definition getTokenInfo (tokenAddress : string) : option TokenInfo :=
  if negb (isValidAddress tokenAddress) then None
  else if String.eqb (toLowerCase tokenAddress) (toLowerCase NATIVE_TOKEN_ADDRESS)
  then Some {| ti_address := NATIVE_TOKEN_ADDRESS; ti_symbol := "ETH";
               ti_decimals := 18; ti_balance := "0" |}
  else
    match chain_symbol tokenAddress, chain_decimals tokenAddress with
    | Some symbol, Some decimals =>
        Some {| ti_address := tokenAddress; ti_symbol := symbol;
                ti_decimals := decimals; ti_balance := "0" |}
    | _, _ => None                       (* catch (contractError) { return null } *)
    end.

Definition getTokenAddressFromSymbol (symbol : string) : option string :=
  let upperSymbol := toUpperCase symbol in
  match COMMON_TOKENS upperSymbol with
  | Some a => if truthy_str a then Some a else None
  | None => None
  end.

(** [None]: "Failed to retrieve private key" is thrown. *)
Definition getPrivateKey (wallet : WalletData) : option string :=
  if negb verifyEncryptionKey then None
  else
    privateKey ← decrypt wallet;
    if negb (isValidPrivateKey privateKey) then None else Some privateKey.

(** *** commands/withdraw.ts: the first two steps *)

Definition cancel_button : option (list (list (string * string))) :=
  Some [[("Cancel", "/cancel")]].

Definition withdrawHandler (wallet : option WalletData) : M Reply :=
  try_catch
    (session ← get_session;
     if negb (truthy_str (userId session))
     then mret (say "❌ Please start the bot first.")
     else
       match wallet with
       | None => mret (say "❌ You don't have a wallet yet. Use /create or /import.")
       | Some w =>
           let balance := getEthBalance (address w) in
           b ← lift (BigInt balance);
           if b <=? 0
           then mret (say "❌ Your wallet has no ETH balance to withdraw.")
           else
             set_tempData {[ "from" := VStr (address w); "balance" := VStr balance ]};;
             set_currentAction (Some "withdraw_address");;
             formattedBalance ← lift (formatEthBalance (VStr balance));
             mret {| response := "💰 Withdraw ETH" +:+ nl +:+ nl
                       +:+ "Your current balance: " +:+ formattedBalance +:+ " ETH"
                       +:+ nl +:+ nl
                       +:+ "Please send the destination Ethereum address.";
                     buttons := cancel_button |}
       end)
    (mret (say "❌ An error occurred.")).

Definition handleWithdrawAddress (wallet : option WalletData) (args : option string)
  : M Reply :=
  try_catch
    (session ← get_session;
     if negb (truthy_str (userId session)) || negb (truthy_arg args)
     then mret (say "❌ Invalid request.")
     else
       let toAddress := default EmptyString args in
       if negb (isValidAddress toAddress)
       then mret (say "❌ Invalid Ethereum address format.")
       else
         match tempData session !! "balance" with
         | Some (VStr balance) =>
             set_temp "to" (VStr toAddress);;
             set_currentAction (Some "withdraw_amount");;
             formattedBalance ← lift (formatEthBalance (VStr balance));
             mret {| response := "📤 Withdraw ETH" +:+ nl +:+ nl
                       +:+ "Destination: " +:+ toAddress +:+ nl
                       +:+ "Balance: " +:+ formattedBalance +:+ " ETH" +:+ nl +:+ nl
                       +:+ "Please enter the amount to withdraw.";
                     buttons := cancel_button |}
         | _ =>
             set_currentAction None;;
             mret (say "❌ Session expired. Please start with /withdraw again.")
         end)
    (mret (say "❌ An error occurred.")).

(** *** commands/buy.ts: the first steps *)

Definition no_eth_to_buy : Reply :=
  say ("❌ Your wallet has no ETH balance to buy tokens." +:+ nl +:+ nl
       +:+ "Use /deposit to get your deposit address and add ETH first.").

Definition buy_prompt (symbol formattedBalance : string) : Reply :=
  say ("💱 Buy " +:+ symbol +:+ nl +:+ nl +:+ "You are buying " +:+ symbol
       +:+ " with ETH." +:+ nl +:+ nl +:+ "Your ETH balance: " +:+ formattedBalance
       +:+ " ETH" +:+ nl +:+ nl
       +:+ "Please enter the amount of ETH you want to spend:").

Definition dquote : string := String (ascii_of_nat 34) EmptyString.

Definition buyHandler (wallet : option WalletData) : M Reply :=
  try_catch
    (session ← get_session;
     if negb (truthy_str (userId session))
     then mret (say "❌ Please start the bot first with /start command.")
     else
       match wallet with
       | None =>
           mret (say ("❌ You don't have a wallet yet." +:+ nl +:+ nl
             +:+ "Use /create to create a new wallet or /import to import an existing one."))
       | Some w =>
           let balance := getEthBalance (address w) in
           b ← lift (BigInt balance);
           if b <=? 0
           then mret no_eth_to_buy
           else
             set_currentAction (Some "buy_token");;
             set_tempData {[ "fromToken" := VStr NATIVE_TOKEN_ADDRESS;
                             "fromSymbol" := VStr "ETH";
                             "fromDecimals" := VNum 18;
                             "walletAddress" := VStr (address w);
                             "balance" := VStr balance ]};;
             formattedBalance ← lift (formatEthBalance (VStr balance));
             mret {| response := "💱 Buy Tokens with ETH" +:+ nl +:+ nl
                       +:+ "Your ETH balance: " +:+ formattedBalance +:+ " ETH"
                       +:+ nl +:+ nl +:+ "Select a token to buy or choose "
                       +:+ dquote +:+ "Custom Token" +:+ dquote
                       +:+ " to enter a specific token address:";
                     buttons := Some [[("USDC", "USDC"); ("DAI", "DAI"); ("WBTC", "WBTC")];
                                      [("Custom Token", "custom")]] |}
       end)
    (mret (say "❌ An error occurred. Please try again later.")).

Definition handleTokenSelection (wallet : option WalletData) (args : option string)
  : M Reply :=
  try_catch
    (if bool_decide (args = Some "custom")
     then
       set_currentAction (Some "buy_custom_token");;
       mret (say ("💱 Buy Custom Token" +:+ nl +:+ nl
         +:+ "Please send the ERC-20 token address you want to buy." +:+ nl +:+ nl
         +:+ "The address should look like: 0x1234...5678" +:+ nl +:+ nl
         +:+ "You can cancel this operation by typing /cancel"))
     else
       tokenSymbol ← lift args;          (* [undefined.toUpperCase()] throws *)
       match getTokenAddressFromSymbol tokenSymbol with
       | None => mret (say "❌ Token symbol not recognized.")
       | Some tokenAddress =>
           match getTokenInfo tokenAddress with
           | None => mret (say "❌ Unable to get token information. Please try again.")
           | Some tokenInfo =>
               set_temp "toToken" (VStr (ti_address tokenInfo));;
               set_temp "toSymbol" (VStr (ti_symbol tokenInfo));;
               set_temp "toDecimals" (VNum (ti_decimals tokenInfo));;
               set_currentAction (Some "buy_amount");;
               balance ← get_temp "balance";
               formattedBalance ← lift (formatEthBalance balance);
               mret (buy_prompt (ti_symbol tokenInfo) formattedBalance)
           end
       end)
    (mret (say "❌ An error occurred. Please try again.")).

Definition handleCustomTokenInput (wallet : option WalletData) (args : option string)
  : M Reply :=
  try_catch
    (session ← get_session;
     if negb (truthy_str (userId session)) || negb (truthy_arg args)
     then mret (say "❌ Invalid request. Please try again.")
     else
       match wallet with
       | None =>
           clear_flow;;
           mret (say "❌ Wallet not found. Please create or import a wallet and restart with /buy.")
       | Some w =>
           let input := default EmptyString args in
           if negb (isValidAddress input)
           then mret (say ("❌ Invalid token address format. Please provide a valid Ethereum address."
                           +:+ nl +:+ nl +:+ "Try again or type /cancel to abort."))
           else
             match getTokenInfo input with
             | None =>
                 mret (say ("❌ Unable to get information for this token. It might not be a valid ERC-20 token on Base Network."
                   +:+ nl +:+ nl
                   +:+ "Please check the address and try again or type /cancel to abort."))
             | Some tokenInfo =>
                 set_temp "walletAddress" (VStr (address w));;
                 let ethBalance := getEthBalance (address w) in
                 b ← lift (BigInt ethBalance);
                 if b <=? 0
                 then mret no_eth_to_buy
                 else
                   set_temp "balance" (VStr ethBalance);;
                   set_temp "fromToken" (VStr NATIVE_TOKEN_ADDRESS);;
                   set_temp "fromSymbol" (VStr "ETH");;
                   set_temp "fromDecimals" (VNum 18);;
                   set_temp "toToken" (VStr (ti_address tokenInfo));;
                   set_temp "toSymbol" (VStr (ti_symbol tokenInfo));;
                   set_temp "toDecimals" (VNum (ti_decimals tokenInfo));;
                   set_currentAction (Some "buy_amount");;
                   formattedBalance ← lift (formatEthBalance (VStr ethBalance));
                   mret (buy_prompt (ti_symbol tokenInfo) formattedBalance)
             end
       end)
    (clear_flow;;
     mret (say "❌ Failed to process token address. Please check the address and try again.")).

(** *** commands/import-export.ts: showing the key *)

Definition key_text (privateKey : string) : string :=
  "🔑 Your Private Key:" +:+ nl +:+ nl +:+ " 0x" +:+ privateKey +:+ nl +:+ nl
  +:+ "⚠️ REMINDER: Save this securely and do not share it with anyone.".

Definition handleExportConfirmation (wallet : option WalletData) (confirmed : bool)
  : M Reply :=
  try_catch
    (set_currentAction None;;
     session ← get_session;
     match wallet with
     | Some w =>
         if negb (truthy_str (userId session))
         then mret (say "❌ Session or wallet not found.")
         else if negb confirmed
         then mret (say "✅ Export cancelled.")
         else
           privateKey ← lift (getPrivateKey w);
           mret (say (key_text privateKey))
     | None => mret (say "❌ Session or wallet not found.")
     end)
    (set_currentAction None;; mret (say "❌ An error occurred during export.")).

(** *** index.ts: the two dispatchers *)

Definition cancel_case : M Reply :=
  set_currentAction None;; set_tempData ∅;; mret (say "Operation cancelled.").

(** [app.post("/api/action")], on the state the middleware loaded. *)
Definition api_action (wallet : option WalletData) (action : string) : M Reply :=
  state ← get_session;
  let free_text :=
    truthy_arg (currentAction state) && negb (startsWith action "/") in
  let actionToPerform := if free_text then default EmptyString (currentAction state) else action in
  let args := Some action in
  let on c := String.eqb actionToPerform c in
  if on "/start" then otherHandler "startHandler" wallet args
  else if on "/help" then otherHandler "helpHandler" wallet args
  else if on "/buy" then otherHandler "buyHandler" wallet args
  else if on "/sell" then otherHandler "sellHandler" wallet args
  else if on "/wallet" then otherHandler "walletHandler" wallet args
  else if on "/balance" then otherHandler "balanceHandler" wallet args
  else if on "/history" then otherHandler "historyHandler" wallet args
  else if on "/settings" then otherHandler "settingsHandler" wallet args
  else if on "/deposit" then otherHandler "depositHandler" wallet args
  else if on "/withdraw" then otherHandler "withdrawHandler" wallet args
  else if on "/create" then otherHandler "createHandler" wallet args
  else if on "/import" then otherHandler "importHandler" wallet args
  else if on "/export" then otherHandler "exportHandler" wallet args
  else if on "/cancel" then cancel_case
  else if on "import_wallet" then otherHandler "handlePrivateKeyInput" wallet args
  else if on "buy_custom_token" then otherHandler "handleCustomTokenInput" wallet args
  else if on "buy_amount" then handleBuyAmountInput wallet args
  else if on "sell_custom_token" then otherHandler "handleSellCustomTokenInput" wallet args
  else if on "sell_amount" then handleSellAmountInput wallet args
  else if on "withdraw_address" then otherHandler "handleWithdrawAddress" wallet args
  else if on "withdraw_amount" then handleWithdrawAmount wallet args
  else mret (say ("Unknown command or action: " +:+ actionToPerform)).

(** [app.post("/api/callback")], on the state the middleware loaded. *)
Definition api_callback (wallet : option WalletData) (callback : string) : M Reply :=
  state ← get_session;
  let args := Some callback in
  let on c := String.eqb callback c in
  if startsWith callback "sell_token_"
  then otherHandler "handleSellTokenSelection" wallet
                    (Some (strip_prefix "sell_token_" callback))
  else if existsb on ["USDC"; "DAI"; "WBTC"; "custom"]
  then otherHandler "handleTokenSelection" wallet args
  else if on "confirm_yes" || on "confirm_no"
  then
    let confirmed := on "confirm_yes" in
    if bool_decide (currentAction state = Some "buy_confirm")
    then handleBuyConfirmation wallet confirmed
    else if bool_decide (currentAction state = Some "sell_confirm")
    then handleSellConfirmation wallet confirmed
    else if bool_decide (currentAction state = Some "export_wallet")
    then otherHandler "handleExportConfirmation" wallet args
    else mret (say "Invalid confirmation state.")
  else if startsWith callback "withdraw_confirm_"
  then handleWithdrawConfirmation wallet (on "withdraw_confirm_true")
  else if startsWith callback "history_"
  then otherHandler "handleTimeframeChange" wallet (Some (strip_prefix "history_" callback))
  else if startsWith callback "settings_"
  then otherHandler "handleSettingsOption" wallet (Some (strip_prefix "settings_" callback))
  else if startsWith callback "slippage_"
  then otherHandler "updateSlippage" wallet (Some (strip_prefix "slippage_" callback))
  else if startsWith callback "gas_"
  then otherHandler "updateGasPriority" wallet (Some (strip_prefix "gas_" callback))
  else if on "check_balance" then otherHandler "balanceHandler" wallet args
  else if on "check_history" then otherHandler "historyHandler" wallet args
  else if on "buy_token" then otherHandler "buyHandler" wallet args
  else if on "sell_token" then otherHandler "sellHandler" wallet args
  else if on "open_settings" then otherHandler "settingsHandler" wallet args
  else if on "deposit" then otherHandler "depositHandler" wallet args
  else if on "withdraw" then otherHandler "withdrawHandler" wallet args
  else if on "help" then otherHandler "helpHandler" wallet args
  else if on "/cancel" then cancel_case
  else if on "create_wallet" || on "confirm_create_wallet"
  then otherHandler "createHandler" wallet args
  else if on "import_wallet" || on "confirm_import_wallet"
  then otherHandler "importHandler" wallet args
  else if on "export_key" then otherHandler "exportHandler" wallet args
  else if on "cancel_create_wallet" || on "cancel_import_wallet"
  then set_currentAction None;; mret (say "Operation cancelled.")
  else mret (say ("Unknown callback: " +:+ callback)).


(** ** Properties *)

(** *** The amount pattern *)

Lemma rmatch_digit_cons (c : ascii) (t : list ascii) (k : list ascii → bool) :
  rmatch RDigit (c :: t) k = is_digit c && k t.
Proof. reflexivity. Qed.

Lemma star_digit_spec (k : list ascii → bool) (n : nat) : ∀ s : list ascii,
  (length s ≤ n)%nat →
  star_loop (rmatch RDigit) k n s = true ↔
  ∃ p r, s = p ++ r ∧ all_digits p ∧ k r = true.
Proof.
  induction n as [|n IH]; intros s Hlen.
  - destruct s; [|simpl in Hlen; lia]. simpl. split.
    + intros Hk. exists [], []. repeat split; [constructor | done].
    + intros (p & r & Hs & _ & Hk). symmetry in Hs.
      apply app_eq_nil in Hs as [-> ->]. done.
  - destruct s as [|c t].
    + simpl. split.
      * intros Hk. exists [], []. repeat split; [constructor | done].
      * intros (p & r & Hs & _ & Hk). symmetry in Hs.
        apply app_eq_nil in Hs as [-> ->]. done.
    + cbn [star_loop]. rewrite rmatch_digit_cons, orb_true_iff, !andb_true_iff.
      simpl in Hlen. assert (Ht : (length t ≤ n)%nat) by lia.
      rewrite (IH t Ht). split.
      * intros [(Hc & _ & p & r & -> & Hp & Hk) | Hk].
        -- exists (c :: p), r. repeat split; [constructor; done | done].
        -- exists [], (c :: t). repeat split; [constructor | done].
      * intros (p & r & Hs & Hp & Hk). destruct p as [|c' p].
        -- right. simpl in Hs. by subst.
        -- left. simpl in Hs. injection Hs as <- ->.
           inversion Hp; subst. repeat split; [done | | by exists p, r].
           apply Nat.ltb_lt. simpl. lia.
Qed.

Lemma range_digit_spec (k : list ascii → bool) (lo n : nat) : ∀ (seen : nat) (s : list ascii),
  range_loop (rmatch RDigit) k lo n seen s = true ↔
  ∃ p r, s = p ++ r ∧ all_digits p ∧ (lo ≤ seen + length p)%nat ∧
         (length p ≤ n)%nat ∧ k r = true.
Proof.
  induction n as [|n IH]; intros seen s.
  - simpl. rewrite andb_true_iff, Nat.leb_le. split.
    + intros [Hlo Hk]. exists [], s. simpl. repeat split; [constructor | lia | lia | done].
    + intros (p & r & -> & _ & Hlo & Hn & Hk). destruct p; [|simpl in Hn; lia].
      simpl in *. split; [lia | done].
  - cbn [range_loop]. rewrite orb_true_iff, andb_true_iff, Nat.leb_le. split.
    + intros [Hm | [Hlo Hk]].
      * destruct s as [|c t]; [done|]. rewrite rmatch_digit_cons in Hm.
        apply andb_true_iff in Hm as [Hc Hm]. apply IH in Hm as (p & r & -> & Hp & Hlo & Hn & Hk).
        exists (c :: p), r. simpl. repeat split; [constructor; done | lia | lia | done].
      * exists [], s. simpl. repeat split; [constructor | lia | lia | done].
    + intros (p & r & -> & Hp & Hlo & Hn & Hk). destruct p as [|c p].
      * right. simpl in *. split; [lia | done].
      * left. inversion Hp; subst. cbn [app]. rewrite rmatch_digit_cons.
        apply andb_true_iff. split; [done|].
        apply IH. exists p, r. simpl in *. repeat split; [done | lia | lia | done].
Qed.

Lemma at_end_true (r : list ascii) : at_end r = true ↔ r = [].
Proof. destruct r; simpl; split; congruence. Qed.

(** The optional fraction [(\.\d{1,18})?] followed by the end of the string. *)
Lemma fraction_spec (r : list ascii) :
  rmatch (ROpt (RSeq (RChar ".") (RRange 1 18 RDigit))) r at_end = true ↔
  ∃ fp, all_digits fp ∧ (length fp ≤ 18)%nat ∧
        r = match fp with [] => [] | _ => "."%char :: fp end.
Proof.
  cbn [rmatch]. rewrite orb_true_iff, at_end_true. split.
  - intros [Hm | ->].
    + destruct r as [|c t]; [done|].
      apply andb_true_iff in Hm as [Hc Hm]. apply Ascii.eqb_eq in Hc as <-.
      apply range_digit_spec in Hm as (p & r & -> & Hp & Hlo & Hhi & Hr).
      apply at_end_true in Hr as ->. rewrite app_nil_r.
      exists p. destruct p; [simpl in Hlo; lia | done].
    + exists []. repeat split; [constructor | simpl; lia].
  - intros (fp & Hfp & Hlen & ->). destruct fp as [|c fp]; [by right | left].
    apply andb_true_iff. split; [done|].
    apply range_digit_spec. exists (c :: fp), []. rewrite app_nil_r.
    repeat split; [done | simpl; lia | done].
Qed.

Lemma lookahead_spec (ip suffix : list ascii) :
  all_digits ip →
  suffix = [] ∨ (∃ fp, suffix = "."%char :: fp) →
  rmatch (RSeq (RChar "0") RDigit) (ip ++ suffix) (λ _, true) = false ↔
  no_redundant_leading_zero ip.
Proof.
  intros Hip Hsuf. unfold no_redundant_leading_zero. split.
  - intros Hm t ->. destruct t as [|d t]; [done|]. exfalso.
    inversion Hip as [|? ? _ Ht]; subst. inversion Ht as [|? ? Hd _]; subst.
    cbn in Hm. rewrite Hd in Hm. done.
  - intros Hz. destruct ip as [|c ip].
    + destruct Hsuf as [-> | [fp ->]]; done.
    + cbn [app rmatch]. destruct (Ascii.eqb "0" c) eqn:Hc; [|done].
      apply Ascii.eqb_eq in Hc as <-. rewrite (Hz ip eq_refl).
      destruct Hsuf as [-> | [fp ->]]; done.
Qed.

Lemma regex_test_amount (s : string) :
  regex_test amountRegex s = true ↔
  ∃ ip fp, decimal_numeral s ip fp ∧ no_redundant_leading_zero ip ∧ (length fp ≤ 18)%nat.
Proof.
  unfold regex_test, amountRegex.
  set (l := list_ascii_of_string s).
  change (rmatch (RSeq ?a ?b) l at_end) with
    (negb (rmatch (RSeq (RChar "0") RDigit) l (λ _, true)) &&
     star_loop (rmatch RDigit)
       (λ r, rmatch (ROpt (RSeq (RChar ".") (RRange 1 18 RDigit))) r at_end) (length l) l).
  rewrite andb_true_iff, negb_true_iff, star_digit_spec by done. split.
  - intros (Hlook & ip & r & Hl & Hip & Hfrac).
    apply fraction_spec in Hfrac as (fp & Hfp & Hlen & ->).
    exists ip, fp. repeat split; [done.. | | done].
    rewrite Hl in Hlook. apply lookahead_spec in Hlook; [done..|].
    destruct fp; [by left | right; eauto].
  - intros (ip & fp & (Hip & Hfp & Hl) & Hz & Hlen). fold l in Hl. split.
    + rewrite Hl. apply lookahead_spec; [done | | done].
      destruct fp; [by left | right; eauto].
    + exists ip, (match fp with [] => [] | _ => "."%char :: fp end).
      repeat split; [done.. |]. apply fraction_spec. by exists fp.
Qed.

(** *** Binary64 rounding keeps a positive ratio positive *)

Lemma round_half_even_ge (a b : Z) : 0 < b → a / b ≤ round_half_even a b.
Proof.
  intros Hb. unfold round_half_even.
  repeat match goal with |- context [if ?c then _ else _] => destruct c end; lia.
Qed.

Lemma scaled_ge (n d e : Z) :
  0 < n → 0 < d →
  e ≤ Z.log2 n - Z.log2 d - 52 ∨ (e = -1074 ∧ d ≤ 2 ^ 1074) →
  0 < snd (scaled n d e) ≤ fst (scaled n d e).
Proof.
  intros Hn Hd He.
  pose proof (Z.log2_spec n Hn) as [Hn1 Hn2].
  pose proof (Z.log2_spec d Hd) as [Hd1 Hd2].
  pose proof (Z.log2_nonneg n) as Hln. pose proof (Z.log2_nonneg d) as Hld.
  unfold scaled. destruct (0 <=? e) eqn:Hsign; cbn [fst snd].
  - apply Z.leb_le in Hsign. destruct He as [He | [-> _]]; [|lia].
    assert (0 < 2 ^ e) by (apply Z.pow_pos_nonneg; lia).
    split; [lia|].
    assert (d * 2 ^ e < 2 ^ Z.succ (Z.log2 d) * 2 ^ e) by nia.
    rewrite <- Z.pow_add_r in H0 by lia.
    assert (2 ^ (Z.succ (Z.log2 d) + e) ≤ 2 ^ Z.log2 n)
      by (apply Z.pow_le_mono_r; lia).
    lia.
  - apply Z.leb_gt in Hsign.
    assert (0 < 2 ^ (- e)) by (apply Z.pow_pos_nonneg; lia).
    split; [lia|]. destruct He as [He | [-> Hd']].
    + assert (2 ^ Z.log2 n * 2 ^ (- e) ≤ n * 2 ^ (- e)) by nia.
      rewrite <- Z.pow_add_r in H0 by lia.
      assert (2 ^ Z.succ (Z.log2 d) ≤ 2 ^ (Z.log2 n + - e))
        by (apply Z.pow_le_mono_r; lia).
      lia.
    + change (- -1074) with 1074 in *. nia.
Qed.

Lemma float_gt_zero_fin (m e : Z) : 0 < m → float_gt (FFin m e) float_zero = true.
Proof.
  intros Hm. unfold float_gt, float_zero. apply Z.ltb_lt.
  assert (0 < 2 ^ (e - Z.min e 0)) by (apply Z.pow_pos_nonneg; lia).
  nia.
Qed.

Lemma b64_positive (n d : Z) :
  0 ≤ n → 0 < d → d ≤ 2 ^ 1074 →
  float_gt (b64_of_ratio n d) float_zero = true ↔ 0 < n.
Proof.
  intros Hn Hd Hd'. unfold b64_of_ratio.
  destruct (n =? 0) eqn:Hz.
  - apply Z.eqb_eq in Hz as ->. split; [done | lia].
  - apply Z.eqb_neq in Hz. split; [lia | intros _].
    set (e0 := Z.log2 n - Z.log2 d - 52).
    destruct (scaled n d e0) as [a0 b0].
    set (e1 := if a0 / b0 <? 2 ^ 52 then e0 - 1 else e0).
    set (e := Z.max e1 (-1074)).
    assert (He : e ≤ e0 ∨ (e = -1074 ∧ d ≤ 2 ^ 1074)).
    { subst e e1. destruct (a0 / b0 <? 2 ^ 52); lia. }
    pose proof (scaled_ge n d e ltac:(lia) Hd He) as Hs.
    destruct (scaled n d e) as [a b]. cbn [fst snd] in Hs.
    destruct (_ && _); [done|].
    apply float_gt_zero_fin.
    pose proof (round_half_even_ge a b ltac:(lia)).
    assert (1 ≤ a / b) by (apply Z.div_le_lower_bound; lia).
    lia.
Qed.

(** *** Digit strings and [parseFloat] *)

Lemma is_digit_value (c : ascii) : is_digit c = true → 0 ≤ digit_value c ≤ 9.
Proof.
  unfold is_digit, digit_value. intros H.
  apply andb_true_iff in H as [H1 H2].
  apply N.leb_le in H1, H2. lia.
Qed.

Lemma fold_digits_nonneg (l : list ascii) : ∀ acc,
  all_digits l → 0 ≤ acc →
  0 ≤ fold_left (λ acc c, acc * 10 + digit_value c) l acc.
Proof.
  induction l as [|c l IH]; intros acc Hl Hacc; [done|].
  inversion Hl; subst. simpl. apply IH; [done|].
  pose proof (is_digit_value c ltac:(done)). lia.
Qed.

Lemma digits_value_nonneg (l : list ascii) : all_digits l → 0 ≤ digits_value l.
Proof. intros Hl. by apply fold_digits_nonneg. Qed.

Lemma span_digits_app (ip rest : list ascii) :
  all_digits ip →
  match rest with [] => True | c :: _ => is_digit c = false end →
  span_digits (ip ++ rest) = (ip, rest).
Proof.
  intros Hip Hrest. induction Hip as [|c ip Hc _ IH]; simpl.
  - destruct rest as [|c t]; [done|]. simpl. by rewrite Hrest.
  - by rewrite Hc, IH.
Qed.

Lemma parseFloat_numeral (s : string) (ip fp : list ascii) :
  decimal_numeral s ip fp →
  parseFloat s =
    match ip ++ fp with
    | [] => FNaN
    | _ => b64_of_ratio (digits_value (ip ++ fp)) (10 ^ Z.of_nat (length fp))
    end.
Proof.
  intros (Hip & Hfp & Hs). unfold parseFloat. rewrite Hs.
  destruct fp as [|c fp].
  - rewrite (span_digits_app ip [] Hip I), app_nil_r. by destruct ip.
  - rewrite (span_digits_app ip ("."%char :: c :: fp) Hip eq_refl).
    change (Ascii.eqb "." ".") with true. cbv iota.
    rewrite <- (app_nil_r (c :: fp)) at 1.
    rewrite (span_digits_app (c :: fp) [] Hfp I).
    by destruct ip.
Qed.

Lemma pow10_bound (k : nat) : (k ≤ 18)%nat → 0 < 10 ^ Z.of_nat k ≤ 2 ^ 1074.
Proof.
  intros Hk. split; [apply Z.pow_pos_nonneg; lia|].
  transitivity (10 ^ 18); [apply Z.pow_le_mono_r; lia|].
  apply Z.leb_le. vm_compute. reflexivity.
Qed.

Lemma decimal_value_pos (ip fp : list ascii) :
  (0 < decimal_value ip fp)%Q ↔ 0 < digits_value (ip ++ fp).
Proof. unfold decimal_value, Qlt. simpl. lia. Qed.

(** C7. [isValidAmount s] is true exactly when [s] is a non-negative decimal
    numeral with no redundant leading zero, at most 18 fractional digits and
    a value above zero; being a function into [bool], it returns a boolean
    on every string and cannot throw. *)
Theorem isValidAmount_spec (s : string) : isValidAmount s = true ↔ spec_valid_amount s.
Proof.
  unfold isValidAmount, spec_valid_amount.
  rewrite andb_true_iff, regex_test_amount. split.
  - intros [(ip & fp & Hnum & Hz & Hlen) Hgt].
    exists ip, fp. repeat split; [apply Hnum.. | done | done |].
    apply decimal_value_pos.
    rewrite (parseFloat_numeral s ip fp Hnum) in Hgt.
    destruct Hnum as (Hip & Hfp & _).
    destruct (ip ++ fp) eqn:Hl; [done|]. rewrite <- Hl in *.
    apply b64_positive in Hgt; [done | | apply pow10_bound; done..].
    apply digits_value_nonneg, Forall_app; done.
  - intros (ip & fp & Hnum & Hz & Hlen & Hpos). split; [by exists ip, fp|].
    apply decimal_value_pos in Hpos.
    rewrite (parseFloat_numeral s ip fp Hnum).
    destruct Hnum as (Hip & Hfp & _).
    destruct (ip ++ fp) eqn:Hl; [done|]. rewrite <- Hl in *.
    apply b64_positive; [ | apply pow10_bound; done.. | done].
    apply digits_value_nonneg, Forall_app; done.
Qed.


(** *** validators.ts: hasEnoughBalance *)

(** C10. [hasEnoughBalance] returns on every triple of strings: the exact
    truth value of [balance >= amount + gasEstimate] when all three parse as
    big integers, and [false] as soon as one of them does not. *)
Theorem hasEnoughBalance_total (balance amount gasEstimate : string) :
  hasEnoughBalance balance amount gasEstimate =
    match BigInt balance, BigInt amount, BigInt gasEstimate with
    | Some b, Some a, Some g => bool_decide (b >= a + g)
    | _, _, _ => false
    end.
Proof.
  unfold hasEnoughBalance.
  destruct (BigInt balance) as [b|]; [|done].
  destruct (BigInt amount) as [a|]; [|done].
  destruct (BigInt gasEstimate) as [g|]; [|done].
  cbn. rewrite Z.geb_leb.
  case_bool_decide; [apply Z.leb_le | apply Z.leb_gt]; lia.
Qed.

(** *** Running a handler *)

Ltac exec :=
  cbv beta iota zeta delta
    [mbind M_bind mret M_ret try_catch throw lift get_session put_session
     set_currentAction set_tempData set_temp get_temp external clear_flow
     cancel_case as_string run];
  cbn [st_session st_log userId currentAction tempData settings
       negb andb orb fst snd default from_option id].

Tactic Notation "exec" "in" hyp(H) :=
  cbv beta iota zeta delta
    [mbind M_bind mret M_ret try_catch throw lift get_session put_session
     set_currentAction set_tempData set_temp get_temp external clear_flow
     cancel_case as_string run] in H;
  cbn [st_session st_log userId currentAction tempData settings
       negb andb orb fst snd default from_option id] in H.

(** *** index.ts: cancel *)

(** C4. A cancel input, through either dispatcher and from any state of the
    session (idle or not), leaves [currentAction] empty and [tempData] equal
    to the empty map, answers the fixed acknowledgement, and makes no
    external call at all: the log is the one it started from, so no
    transaction record is written. *)
Theorem cancel_resets (w : World) (wallet : option WalletData) (s : Session)
    (log : list event) :
  let st := {| st_session := s; st_log := log |} in
  let st' := {| st_session := cancelled s; st_log := log |} in
  api_action wallet "/cancel" w st = (Some (say "Operation cancelled."), st') ∧
  api_callback wallet "/cancel" w st = (Some (say "Operation cancelled."), st') ∧
  currentAction (cancelled s) = None ∧
  tempData (cancelled s) = ∅.
Proof.
  intros st st'. subst st st'. split; [|split; [|split; reflexivity]].
  - unfold api_action. exec.
    change (startsWith "/cancel" "/") with true. cbn [negb].
    rewrite andb_false_r. reflexivity.
  - unfold api_callback. exec. reflexivity.
Qed.

(** *** lib/swap.ts: gas parameters never fail *)

Lemma getGasParams_run (priority : string) (w : World) (st : St) :
  ∃ gp ok,
    getGasParams priority w st =
      (Some gp, {| st_session := st_session st;
                   st_log := st_log st ++ [Ev EstimateFeesPerGas ok] |}) ∧
    (ok = false → gp = fallback_gas).
Proof.
  unfold getGasParams. exec.
  destruct (w_estimateFeesPerGas w _) as [[maxFee tip]|].
  - destruct (formatUnits maxFee (VNum 9)) as [fee|]; exec; [|by eexists _, _].
    destruct (formatUnits tip (VNum 9)); exec; by eexists _, _.
  - by eexists _, _.
Qed.

(** *** commands/withdraw.ts: the balance checks at amount entry *)

(** The runtime reads back what it printed. *)
Hypothesis BigInt_roundtrip : ∀ z : Z, BigInt (BigInt_toString z) = Some z.

Lemma valid_amount_truthy (input : string) :
  isValidAmount input = true → truthy_arg (Some input) = true.
Proof. by destruct input. Qed.

(** C2. At Withdraw amount entry, with stored balance [b] and entered
    amount [a] in wei: the flow reaches [withdraw_confirm] only if
    [a <= b] and [b > a + 21000 * maxFeePerGas]; the first comparison is
    made first (when it fails the gas provider is not even consulted); a
    failed comparison answers an error and leaves the session as it was,
    still at amount entry and not idle; so an amount equal to the whole
    balance is refused when the fee is positive. *)
Theorem withdraw_amount_checks (w : World) (wallet : option WalletData) (s : Session)
    (input balance toAddress : string) (a b : Z) :
  truthy_str (userId s) = true →
  currentAction s = Some "withdraw_amount" →
  tempData s !! "balance" = Some (VStr balance) →
  tempData s !! "to" = Some (VStr toAddress) →
  BigInt balance = Some b →
  isValidAmount input = true →
  parseEther (lead_zero input) = Some a →
  ∃ gp st1,
    getGasParams (settings_gasPriority s) w {| st_session := s; st_log := [] |}
      = (Some gp, st1) ∧
    let fee := parseGwei (maxFeePerGas gp) in
    let result := run (handleWithdrawAmount wallet (Some input)) w s in
    let s' := st_session (result.2) in
    (currentAction s' = Some "withdraw_confirm" →
       ∃ f, fee = Some f ∧ a ≤ b ∧ b > a + 21000 * f) ∧
    (b < a →
       result.2 = {| st_session := s; st_log := [] |} ∧
       (result.1 = Some (say "❌ An error occurred.") ∨
        ∃ shown, result.1 =
          Some (say ("❌ Insufficient balance. You have " +:+ shown +:+ " ETH.")))) ∧
    (∀ f, fee = Some f → a ≤ b → b ≤ a + 21000 * f →
       s' = s ∧ currentAction s' = Some "withdraw_amount" ∧
       result.1 = Some (say "❌ Insufficient balance for amount + gas.")) ∧
    (∀ f, fee = Some f → a = b → 0 < f →
       currentAction s' = Some "withdraw_amount" ∧
       result.1 = Some (say "❌ Insufficient balance for amount + gas.")).
Proof.
  intros Huser Hact Hbal Hto Hb Hvalid Ha.
  pose proof (valid_amount_truthy input Hvalid) as Harg.
  destruct (getGasParams_run (settings_gasPriority s) w
              {| st_session := s; st_log := [] |}) as (gp & ok & Hgas & _).
  cbn [st_session st_log app] in Hgas.
  eexists gp, _. split; [exact Hgas|].
  destruct (run _ w s) as [r st'] eqn:Hrun. cbn [fst snd].
  unfold handleWithdrawAmount in Hrun. exec in Hrun.
  rewrite Huser, Harg, Hbal, Hto in Hrun. exec in Hrun.
  rewrite Hvalid, Ha in Hrun. exec in Hrun.
  rewrite Hb, BigInt_roundtrip in Hrun. exec in Hrun.
  destruct (b <? a) eqn:Hlt.
  - apply Z.ltb_lt in Hlt.
    destruct (formatEthBalance (VStr balance)) as [shown|];
      injection Hrun as <- <-; cbn [st_session]; rewrite Hact;
      (repeat split; try (intros; (done || lia))); [right; by eexists | by left].
  - apply Z.ltb_ge in Hlt. rewrite Hgas in Hrun. exec in Hrun.
    destruct (parseGwei (maxFeePerGas gp)) as [f|] eqn:Hfee; exec in Hrun.
    + destruct (b <=? a + f * 21000) eqn:Hle.
      * apply Z.leb_le in Hle. injection Hrun as <- <-. cbn [st_session].
        rewrite Hact. repeat split; try (intros; (done || lia)).
      * apply Z.leb_gt in Hle.
        split; [intros _; exists f; repeat split; lia|].
        split; [intros; lia|].
        split; intros f0 [= <-] ? ?; lia.
    + injection Hrun as <- <-. cbn [st_session]. rewrite Hact.
      repeat split; try (intros; (done || lia)).
Qed.

(** *** commands/sell.ts: the literal "max" *)

Ltac split_option H :=
  match type of H with
  | context [match ?x with Some _ => _ | None => _ end] => destruct x eqn:?
  end.

Ltac use_gas H :=
  match type of H with
  | context [getGasParams ?p ?w ?st] =>
      let gp := fresh "gp" in
      let ok := fresh "ok" in
      let Hg := fresh "Hgas" in
      destruct (getGasParams_run p w st) as (gp & ok & Hg & _);
      cbn [st_session st_log] in Hg; rewrite Hg in H; clear Hg
  end.

Lemma lower_max_truthy (input : string) :
  toLowerCase input = "max" → truthy_arg (Some input) = true.
Proof. by destruct input. Qed.

Lemma handleSellAmountLogic_returns (wallet : option WalletData) (v : val)
    (w : World) (st : St) :
  ∃ r st', handleSellAmountLogic wallet v w st = (Some r, st').
Proof.
  unfold handleSellAmountLogic, try_catch.
  destruct (_ w st) as [[r|] st']; by eexists _, _.
Qed.

Lemma handleSellAmountLogic_fromAmount (wl : WalletData) (v : val)
    (w : World) (st : St) :
  tempData (st_session (handleSellAmountLogic (Some wl) v w st).2) !! "fromAmount"
    = Some v.
Proof.
  destruct (handleSellAmountLogic _ _ _ _) as [r st'] eqn:Hrun. cbn [snd].
  unfold handleSellAmountLogic, getQuote in Hrun. exec in Hrun.
  use_gas Hrun. exec in Hrun.
  repeat (split_option Hrun; exec in Hrun);
    injection Hrun as <- <-; cbn [st_session tempData]; by simplify_map_eq.
Qed.

(** C8. At Sell amount entry the input "max", in any letter case, skips the
    amount pattern and the decimal conversion: the handler is the quote step
    run on the stored [tokenBalance] as it is, and whatever happens next the
    flow's [fromAmount] is that stored value, whatever the token's decimals. *)
Theorem sell_max_is_stored_balance (w : World) (wl : WalletData) (s : Session)
    (input : string) :
  truthy_str (userId s) = true →
  toLowerCase input = "max" →
  let result := run (handleSellAmountInput (Some wl) (Some input)) w s in
  result = run (handleSellAmountLogic (Some wl) (temp s "tokenBalance")) w s ∧
  tempData (st_session result.2) !! "fromAmount" = Some (temp s "tokenBalance").
Proof.
  intros Huser Hmax result.
  assert (Hres : result = run (handleSellAmountLogic (Some wl) (temp s "tokenBalance")) w s).
  { subst result. unfold handleSellAmountInput at 1. exec.
    rewrite Huser, (lower_max_truthy input Hmax). exec. rewrite Hmax.
    change ("max" =? "max")%string with true. cbv iota.
    destruct (handleSellAmountLogic_returns (Some wl) (temp s "tokenBalance") w
                {| st_session := s; st_log := [] |}) as (r & st' & ->).
    reflexivity. }
  split; [exact Hres|]. rewrite Hres. apply handleSellAmountLogic_fromAmount.
Qed.

(** *** Confirmations: what every path through Buy and Withdraw does *)

Ltac split_bool H :=
  match type of H with
  | context [if ?b then _ else _] => destruct b eqn:?
  end.

Ltac split_val H :=
  match type of H with
  | context [match ?x with VUndef => _ | VStr _ => _ | VNum _ => _ | VBig _ => _ end] =>
      destruct x eqn:?
  end.

Ltac explore H :=
  repeat (exec in H; first [use_gas H | split_option H | split_val H | split_bool H]).

Lemma buy_confirm_clears (w : World) (wl : WalletData) (s : Session) :
  truthy_str (userId s) = true →
  let result := run (handleBuyConfirmation (Some wl) true) w s in
  st_session result.2 = cancelled s ∧
  (provider_failed (st_log result.2) = true → result.1 = Some trade_error).
Proof.
  intros Huser result. subst result.
  destruct (run _ w s) as [r st'] eqn:Hrun.
  unfold handleBuyConfirmation, getSwap, executeTransaction, saveTransaction in Hrun.
  exec in Hrun. rewrite Huser in Hrun.
  explore Hrun; injection Hrun as <- <-; (split; [reflexivity|]);
    cbn; intros Hfail; (discriminate Hfail || reflexivity).
Qed.

Lemma withdraw_confirm_clears (w : World) (wl : WalletData) (s : Session) :
  truthy_str (userId s) = true →
  truthy (temp s "from") && truthy (temp s "to") && truthy (temp s "amount") = true →
  let result := run (handleWithdrawConfirmation (Some wl) true) w s in
  st_session result.2 = cancelled s ∧
  (provider_failed (st_log result.2) = true → result.1 = Some withdrawal_error).
Proof.
  intros Huser Hdata result. subst result.
  apply andb_true_iff in Hdata as [Hdata Hamount].
  apply andb_true_iff in Hdata as [Hfrom Hto].
  destruct (run _ w s) as [r st'] eqn:Hrun.
  unfold handleWithdrawConfirmation, withdrawEth, saveTransaction in Hrun.
  exec in Hrun. rewrite Huser, Hfrom, Hto, Hamount in Hrun.
  explore Hrun; injection Hrun as <- <-; (split; [reflexivity|]);
    cbn; intros Hfail; (discriminate Hfail || reflexivity).
Qed.

Ltac abort_paths Hrun :=
  explore Hrun; injection Hrun as <- <-;
  cbn; rewrite ?andb_false_r; cbn;
  intros Hfail; (discriminate Hfail || (repeat split; reflexivity)).

Lemma buy_amount_aborts (w : World) (wallet : option WalletData) (s : Session)
    (args : option string) :
  let result := run (handleBuyAmountInput wallet args) w s in
  provider_failed (st_log result.2) = true → aborted result buy_amount_error.
Proof.
  intros result. subst result. unfold aborted.
  destruct (run _ w s) as [r st'] eqn:Hrun.
  unfold handleBuyAmountInput, getQuote in Hrun.
  abort_paths Hrun.
Qed.

Lemma buy_confirm_aborts (w : World) (wallet : option WalletData) (s : Session)
    (confirmed : bool) :
  let result := run (handleBuyConfirmation wallet confirmed) w s in
  provider_failed (st_log result.2) = true → aborted result trade_error.
Proof.
  intros result. subst result. unfold aborted.
  destruct (run _ w s) as [r st'] eqn:Hrun.
  unfold handleBuyConfirmation, getSwap, executeTransaction, saveTransaction in Hrun.
  abort_paths Hrun.
Qed.

Lemma sell_confirm_aborts (w : World) (wallet : option WalletData) (s : Session)
    (confirmed : bool) :
  let result := run (handleSellConfirmation wallet confirmed) w s in
  provider_failed (st_log result.2) = true → aborted result trade_error.
Proof.
  intros result. subst result. unfold aborted.
  destruct (run _ w s) as [r st'] eqn:Hrun.
  unfold handleSellConfirmation, getSwap, getTokenAllowance, executeContractMethod,
    executeTransaction, saveTransaction in Hrun.
  abort_paths Hrun.
Qed.

Lemma withdraw_confirm_aborts (w : World) (wallet : option WalletData) (s : Session)
    (confirmed : bool) :
  let result := run (handleWithdrawConfirmation wallet confirmed) w s in
  provider_failed (st_log result.2) = true → aborted result withdrawal_error.
Proof.
  intros result. subst result. unfold aborted.
  destruct (run _ w s) as [r st'] eqn:Hrun.
  unfold handleWithdrawConfirmation, withdrawEth, saveTransaction in Hrun.
  abort_paths Hrun.
Qed.

(** *** lib/token-wallet.ts: the allowance reader, and what its caller sees *)

Lemma BigInt_zero : BigInt "0" = Some 0.
Proof. exact (BigInt_roundtrip 0). Qed.

Lemma sell_confirm_read_failure_approves (w : World) (wl : WalletData) (s : Session)
    (token formatted : string) (units need : Z) (swap : SwapData) :
  truthy_str (userId s) = true →
  temp s "fromToken" = VStr token →
  toLowerCase token ≠ toLowerCase NATIVE_TOKEN_ADDRESS →
  BigInt_of (temp s "fromAmount") = Some units →
  formatUnits (VBig units) (temp s "fromDecimals") = Some formatted →
  w_getSwap w [swap_call s formatted] = Some swap →
  w_readContract w [swap_call s formatted; ReadContract token (address wl) (sw_to swap)]
    = None →
  BigInt (sw_inAmount swap) = Some need →
  0 < need →
  let result := run (handleSellConfirmation (Some wl) true) w s in
  ∃ ok rest,
    st_log result.2 =
      Ev (swap_call s formatted) true
      :: Ev (ReadContract token (address wl) (sw_to swap)) false
      :: Ev (WriteContract token "approve" [sw_to swap; MAX_UINT256]) ok
      :: rest.
Proof.
  intros Huser Htoken Hnative Hunits Hfmt Hswap Hread Hneed Hpos result. subst result.
  apply String.eqb_neq in Hnative.
  destruct (run _ w s) as [r st'] eqn:Hrun.
  unfold handleSellConfirmation, getSwap, getTokenAllowance, executeContractMethod,
    executeTransaction, saveTransaction in Hrun.
  exec in Hrun. fold (swap_call s formatted) in Hrun.
  rewrite Huser, Hunits in Hrun. exec in Hrun. rewrite Hfmt in Hrun. exec in Hrun.
  cbn [map app] in Hrun. fold (swap_call s formatted) in Hrun.
  rewrite Hswap, Htoken in Hrun. exec in Hrun.
  rewrite Hnative in Hrun. exec in Hrun. cbn [map app ev_call] in Hrun.
  rewrite Hread in Hrun. exec in Hrun.
  rewrite BigInt_zero, Hneed in Hrun. exec in Hrun.
  apply Z.ltb_lt in Hpos. rewrite Hpos in Hrun. exec in Hrun.
  cbn [map app ev_call] in Hrun.
  destruct (w_writeContract w _) as [receipt|]; exec in Hrun.
  - explore Hrun; injection Hrun as <- <-; cbn; by eexists _, _.
  - injection Hrun as <- <-. cbn. by eexists _, _.
Qed.

Lemma getTokenAllowance_run (w : World) (st : St) (token owner spender : string) :
  let read := ReadContract token owner spender in
  let asked := map ev_call (st_log st) ++ [read] in
  let logged ok :=
    {| st_session := st_session st; st_log := st_log st ++ [Ev read ok] |} in
  (toLowerCase token = toLowerCase NATIVE_TOKEN_ADDRESS →
     getTokenAllowance token owner spender w st = (Some MAX_UINT256, st)) ∧
  (toLowerCase token ≠ toLowerCase NATIVE_TOKEN_ADDRESS →
     w_readContract w asked = None →
     getTokenAllowance token owner spender w st = (Some "0", logged false)) ∧
  (toLowerCase token ≠ toLowerCase NATIVE_TOKEN_ADDRESS →
     ∀ n, w_readContract w asked = Some n →
     getTokenAllowance token owner spender w st = (Some (BigInt_toString n), logged true)).
Proof.
  intros read asked logged. subst read asked logged.
  unfold getTokenAllowance. exec. repeat split.
  - intros ->. by rewrite String.eqb_refl.
  - intros Hne%String.eqb_neq Hread. by rewrite Hne, Hread.
  - intros Hne%String.eqb_neq n Hread. by rewrite Hne, Hread.
Qed.

(** What holds of the approval steps on every run: an approval is submitted
    exactly when the allowance read is below the swap's [inAmount]; after a
    failed approval, and after a second read below the session's
    [fromAmount], nothing is submitted. *)
Lemma sell_confirm_approval_steps (w : World) (wl : WalletData) (s : Session)
    (token formatted : string) (units need have : Z) (swap : SwapData) :
  truthy_str (userId s) = true →
  temp s "fromToken" = VStr token →
  toLowerCase token ≠ toLowerCase NATIVE_TOKEN_ADDRESS →
  BigInt_of (temp s "fromAmount") = Some units →
  formatUnits (VBig units) (temp s "fromDecimals") = Some formatted →
  w_getSwap w [swap_call s formatted] = Some swap →
  let read := ReadContract token (address wl) (sw_to swap) in
  let approve := WriteContract token "approve" [sw_to swap; MAX_UINT256] in
  w_readContract w [swap_call s formatted; read] = Some have →
  BigInt (sw_inAmount swap) = Some need →
  let result := run (handleSellConfirmation (Some wl) true) w s in
  let log := st_log result.2 in
  (need ≤ have → count_calls is_approval log = 0%nat) ∧
  (have < need →
     count_calls is_approval log = 1%nat ∧
     ∀ receipt,
       w_writeContract w [swap_call s formatted; read; approve] = Some receipt →
       (status receipt ≠ "success" →
          count_calls is_submission log = 0%nat ∧
          result.1 = Some (say ("❌ Approval Failed" +:+ nl +:+ nl
            +:+ "Unable to approve token spending." +:+ nl
            +:+ "View on Block Explorer: https://basescan.org/tx/"
            +:+ transactionHash receipt))) ∧
       (status receipt = "success" →
          ∀ again,
            w_readContract w [swap_call s formatted; read; approve; read] = Some again →
            again < units →
            count_calls is_submission log = 0%nat ∧
            result.1 = Some (say "❌ Token approval failed. Please try again later."))).
Proof.
  intros Huser Htoken Hnative Hunits Hfmt Hswap read approve Hread Hneed result log.
  subst read approve log result.
  apply String.eqb_neq in Hnative.
  destruct (run _ w s) as [r st'] eqn:Hrun.
  unfold handleSellConfirmation, getSwap, getTokenAllowance, executeContractMethod,
    executeTransaction, saveTransaction in Hrun.
  exec in Hrun. fold (swap_call s formatted) in Hrun.
  rewrite Huser, Hunits in Hrun. exec in Hrun. rewrite Hfmt in Hrun. exec in Hrun.
  cbn [map app] in Hrun. fold (swap_call s formatted) in Hrun.
  rewrite Hswap, Htoken in Hrun. exec in Hrun.
  rewrite Hnative in Hrun. exec in Hrun. cbn [map app ev_call] in Hrun.
  rewrite Hread in Hrun. exec in Hrun.
  rewrite BigInt_roundtrip, Hneed in Hrun. exec in Hrun.
  destruct (have <? need) eqn:Hlt.
  - apply Z.ltb_lt in Hlt. split; [lia | intros _].
    exec in Hrun. cbn [map app ev_call] in Hrun.
    destruct (w_writeContract w _) as [receipt|] eqn:Hwrite; exec in Hrun.
    + cbn [status transactionHash normal_receipt] in Hrun.
      destruct (status receipt =? "success")%string eqn:Hst.
      * apply String.eqb_eq in Hst. cbn [String.eqb Ascii.eqb Bool.eqb negb] in Hrun.
        exec in Hrun. cbn [map app ev_call] in Hrun.
        match type of Hrun with
        | context [w_readContract w ?l] =>
            destruct (w_readContract w l) as [again|] eqn:Hagain
        end; exec in Hrun.
        -- rewrite BigInt_roundtrip in Hrun. exec in Hrun.
           destruct (again <? units) eqn:Hshort.
           ++ injection Hrun as <- <-. cbn [fst snd st_log]. split; [reflexivity|].
              intros receipt' [= <-]. split; [intros Hne; by destruct Hne|].
              intros _ again' [= <-] _. split; reflexivity.
           ++ apply Z.ltb_ge in Hshort.
              assert (Hcount : count_calls is_approval (st_log st') = 1%nat).
              { clear -Hrun. explore Hrun; injection Hrun as <- <-; reflexivity. }
              cbn [fst snd]. split; [exact Hcount|].
              intros receipt' [= <-]. split; [intros Hne; by destruct Hne|].
              intros _ again' [= <-] ?. lia.
        -- rewrite BigInt_zero in Hrun. exec in Hrun.
           assert (Hcount : count_calls is_approval (st_log st') = 1%nat).
           { clear -Hrun. explore Hrun; injection Hrun as <- <-; reflexivity. }
           cbn [fst snd]. split; [exact Hcount|].
           intros receipt' [= <-]. split; [intros Hne; by destruct Hne|].
           intros _ again' [=].
      * cbn [negb] in Hrun. exec in Hrun. injection Hrun as <- <-.
        cbn [fst snd st_log]. split; [reflexivity|].
        intros receipt' [= <-]. split.
        -- intros _. split; reflexivity.
        -- intros Hst'. rewrite Hst' in Hst. discriminate Hst.
    + injection Hrun as <- <-. cbn [fst snd st_log]. split; [reflexivity|].
      intros receipt [=].
  - apply Z.ltb_ge in Hlt. split; [intros _ | lia].
    cbn [fst snd].
    explore Hrun; injection Hrun as <- <-; reflexivity.
Qed.

(** C9. [getTokenAllowance] answers [MAX_UINT256] for the native token, in
    any letter case, without reading the chain (the log is untouched); when
    the on-chain read is rejected it answers the string "0" instead of
    throwing, which is also what a true allowance of zero reads as; and the
    Sell confirmation, on such a rejected read, goes on to submit an approval
    (for a positive required amount) rather than stopping. *)
Theorem allowance_read_contract :
  (∀ (w : World) (st : St) (token owner spender : string),
     let read := ReadContract token owner spender in
     let asked := map ev_call (st_log st) ++ [read] in
     let logged ok :=
       {| st_session := st_session st; st_log := st_log st ++ [Ev read ok] |} in
     (toLowerCase token = toLowerCase NATIVE_TOKEN_ADDRESS →
        getTokenAllowance token owner spender w st = (Some MAX_UINT256, st)) ∧
     (toLowerCase token ≠ toLowerCase NATIVE_TOKEN_ADDRESS →
        w_readContract w asked = None →
        getTokenAllowance token owner spender w st = (Some "0", logged false)) ∧
     (toLowerCase token ≠ toLowerCase NATIVE_TOKEN_ADDRESS →
        w_readContract w asked = Some 0 →
        getTokenAllowance token owner spender w st = (Some "0", logged true))) ∧
  (∀ (w : World) (wl : WalletData) (s : Session) (token formatted : string)
     (units need : Z) (swap : SwapData),
     truthy_str (userId s) = true →
     temp s "fromToken" = VStr token →
     toLowerCase token ≠ toLowerCase NATIVE_TOKEN_ADDRESS →
     BigInt_of (temp s "fromAmount") = Some units →
     formatUnits (VBig units) (temp s "fromDecimals") = Some formatted →
     w_getSwap w [swap_call s formatted] = Some swap →
     w_readContract w
       [swap_call s formatted; ReadContract token (address wl) (sw_to swap)] = None →
     BigInt (sw_inAmount swap) = Some need →
     0 < need →
     ∃ ok rest,
       st_log (run (handleSellConfirmation (Some wl) true) w s).2 =
         Ev (swap_call s formatted) true
         :: Ev (ReadContract token (address wl) (sw_to swap)) false
         :: Ev (WriteContract token "approve" [sw_to swap; MAX_UINT256]) ok
         :: rest).
Proof.
  split.
  - intros w st token owner spender.
    destruct (getTokenAllowance_run w st token owner spender) as (H1 & H2 & H3).
    repeat split; [exact H1 | exact H2 |].
    intros Hne Hread. exact (H3 Hne 0 Hread).
  - intros. by eapply sell_confirm_read_failure_approves.
Qed.

(** *** What a rejected provider call does to the flow *)

(** C5, as the code has it.  A rejected quote retrieval at Buy amount entry,
    and a rejected swap construction or a rejected submission (approval,
    swap or transfer) at a Buy, Sell or Withdraw confirmation, end the flow:
    [currentAction] is idle, [tempData] is empty and the handler's generic
    message is the answer.  A rejected fee estimate does not end anything:
    [getGasParams] returns, with its fixed fallback values.  A rejected
    allowance read does not either: it reads as the string "0". *)
Theorem provider_failure_aborts (w : World) (wallet : option WalletData) (s : Session) :
  (∀ args,
     let result := run (handleBuyAmountInput wallet args) w s in
     provider_failed (st_log result.2) = true → aborted result buy_amount_error) ∧
  (∀ confirmed,
     let result := run (handleBuyConfirmation wallet confirmed) w s in
     provider_failed (st_log result.2) = true → aborted result trade_error) ∧
  (∀ confirmed,
     let result := run (handleSellConfirmation wallet confirmed) w s in
     provider_failed (st_log result.2) = true → aborted result trade_error) ∧
  (∀ confirmed,
     let result := run (handleWithdrawConfirmation wallet confirmed) w s in
     provider_failed (st_log result.2) = true → aborted result withdrawal_error) ∧
  (∀ priority st, ∃ gp ok,
     getGasParams priority w st =
       (Some gp, {| st_session := st_session st;
                    st_log := st_log st ++ [Ev EstimateFeesPerGas ok] |}) ∧
     (ok = false → gp = fallback_gas)) ∧
  (∀ st token owner spender,
     toLowerCase token ≠ toLowerCase NATIVE_TOKEN_ADDRESS →
     w_readContract w (map ev_call (st_log st) ++ [ReadContract token owner spender])
       = None →
     (getTokenAllowance token owner spender w st).1 = Some "0").
Proof.
  split; [intros args; apply buy_amount_aborts|].
  split; [intros c; apply buy_confirm_aborts|].
  split; [intros c; apply sell_confirm_aborts|].
  split; [intros c; apply withdraw_confirm_aborts|].
  split; [intros p st; apply getGasParams_run|].
  intros st token owner spender Hne Hread.
  destruct (getTokenAllowance_run w st token owner spender) as (_ & H2 & _).
  by rewrite (H2 Hne Hread).
Qed.

(** *** Confirmations: what is sent, and how often *)

Ltac log_facts :=
  unfold submits_once; cbn [st_log]; vm_compute;
  repeat split; first [reflexivity | lia | discriminate].


Ltac pick_event H :=
  cbn [st_log app] in H; apply list_elem_of_lookup_2 in H;
  repeat match type of H with
         | _ ∈ [] => by apply elem_of_nil in H
         | _ ∈ _ :: _ => apply elem_of_cons in H as [H|H]
         end;
  injection H as -> ->.


(** X3. A Withdraw confirmation submits a transfer only when it was
    confirmed for a session with a user and a wallet whose [tempData] holds
    a sender, a recipient and an amount; the transfer goes to the stored
    recipient, carries no call data and has the stored amount as its value.
    The current action plays no part. *)
Theorem withdraw_submits_session_details (w : World) (wallet : option WalletData)
    (s : Session) (confirmed : bool) (i : nat) (c : call) (ok : bool) :
  st_log (run (handleWithdrawConfirmation wallet confirmed) w s).2 !! i
    = Some (Ev c ok) →
  is_submission c = true →
  confirmed = true ∧ is_Some wallet ∧ truthy_str (userId s) = true ∧
  truthy (temp s "from") = true ∧ truthy (temp s "to") = true ∧
  truthy (temp s "amount") = true ∧
  ∃ v fees, BigInt_of (temp s "amount") = Some v ∧
            c = SendTransaction (temp s "to") None v fees.
Proof.
  intros Hev Hsub. destruct confirmed.
  - destruct (run _ w s) as [r st'] eqn:Hrun. cbn [snd] in Hev.
    unfold handleWithdrawConfirmation, withdrawEth, saveTransaction in Hrun.
    exec in Hrun. destruct wallet as [wl|]; exec in Hrun.
    + destruct (truthy_str (userId s)); exec in Hrun.
      * destruct (truthy (temp s "from")); exec in Hrun;
          [|injection Hrun as <- <-; by pick_event Hev].
        destruct (truthy (temp s "to")); exec in Hrun;
          [|injection Hrun as <- <-; by pick_event Hev].
        destruct (truthy (temp s "amount")); exec in Hrun;
          [|injection Hrun as <- <-; by pick_event Hev].
        destruct (BigInt_of (temp s "amount")) as [v|] eqn:Hv; exec in Hrun;
          [|injection Hrun as <- <-; by pick_event Hev].
        explore Hrun; injection Hrun as <- <-; pick_event Hev;
          try discriminate Hsub; repeat split; eauto.
      * injection Hrun as <- <-. by pick_event Hev.
    + injection Hrun as <- <-. by pick_event Hev.
  - unfold handleWithdrawConfirmation in Hev. exec in Hev. by pick_event Hev.
Qed.

(** X4. A Sell confirmation makes at most one approval and at most two
    allowance reads, and when the token sold is the native token, in any
    letter case, it makes neither. *)
Theorem sell_approves_at_most_once (w : World) (wallet : option WalletData)
    (s : Session) (confirmed : bool) :
  let log := st_log (run (handleSellConfirmation wallet confirmed) w s).2 in
  (count_calls is_approval log ≤ 1)%nat ∧
  (count_calls is_allowance_read log ≤ 2)%nat ∧
  (∀ token, temp s "fromToken" = VStr token →
            toLowerCase token = toLowerCase NATIVE_TOKEN_ADDRESS →
            count_calls is_approval log = 0%nat ∧
            count_calls is_allowance_read log = 0%nat).
Proof.
  intros log. subst log. split; [|split].
  - destruct (run _ w s) as [r st'] eqn:Hrun. cbn [snd].
    unfold handleSellConfirmation, getSwap, getTokenAllowance, executeContractMethod,
      executeTransaction, saveTransaction in Hrun.
    explore Hrun; injection Hrun as <- <-; cbn [st_log]; vm_compute; lia.
  - destruct (run _ w s) as [r st'] eqn:Hrun. cbn [snd].
    unfold handleSellConfirmation, getSwap, getTokenAllowance, executeContractMethod,
      executeTransaction, saveTransaction in Hrun.
    explore Hrun; injection Hrun as <- <-; cbn [st_log]; vm_compute; lia.
  - intros token Htoken Hnative.
    destruct (run _ w s) as [r st'] eqn:Hrun. cbn [snd].
    unfold handleSellConfirmation, getSwap, getTokenAllowance, executeContractMethod,
      executeTransaction, saveTransaction in Hrun.
    destruct confirmed; exec in Hrun; [|by injection Hrun as <- <-].
    rewrite Htoken in Hrun. exec in Hrun.
    rewrite Hnative, String.eqb_refl in Hrun.
    explore Hrun; injection Hrun as <- <-; cbn [st_log]; vm_compute; by split.
Qed.

(** X5. The Buy confirmation empties [tempData] before it reads the amount
    bought from it, so the success message is never built: with a
    formatter that, like viem's, fails on undefined arguments, every answer
    is the cancellation, a missing session or wallet, the failure notice of
    a receipt, or the generic error, whatever the receipt says. *)
Theorem buy_confirm_never_reports_success (w : World) (wallet : option WalletData)
    (s : Session) (confirmed : bool) (r : Reply) :
  formatUnits VUndef VUndef = None →
  (run (handleBuyConfirmation wallet confirmed) w s).1 = Some r →
  r = say "Trade cancelled." ∨
  r = say "❌ Session expired. Please use /start to begin again." ∨
  r = say "❌ Wallet not found. Please create or import a wallet first." ∨
  r = trade_error ∨
  ∃ hash, r = say (strip_backticks
                     ("❌ Transaction Failed" +:+ nl +:+ nl
                      +:+ "View on Block Explorer: https://basescan.org/tx/"
                      +:+ hash)).
Proof.
  intros Hundef Hr.
  destruct (run _ w s) as [r' st'] eqn:Hrun. cbn [fst] in Hr. subst r'.
  unfold handleBuyConfirmation, getSwap, executeTransaction, saveTransaction in Hrun.
  explore Hrun;
    try match goal with
        | H : formatUnits (temp _ _) _ = Some _ |- _ =>
            vm_compute in H; rewrite Hundef in H; discriminate H
        end;
    injection Hrun as <- _; eauto 10.
Qed.

(** *** Amount entry: validation comes before any call *)

(** X6. At the amount step of Buy, Sell and Withdraw no provider is called
    unless the text received passes [isValidAmount] (for Sell, or is the
    word "max" in some letter case): whatever the session holds, an absent,
    empty or malformed input leaves the log empty. *)
Theorem amount_entry_validates_before_calling (w : World)
    (wallet : option WalletData) (s : Session) (args : option string) :
  let valid := ∃ input, args = Some input ∧ isValidAmount input = true in
  let max := ∃ input, args = Some input ∧ toLowerCase input = "max" in
  (st_log (run (handleBuyAmountInput wallet args) w s).2 ≠ [] → valid) ∧
  (st_log (run (handleSellAmountInput wallet args) w s).2 ≠ [] → valid ∨ max) ∧
  (st_log (run (handleWithdrawAmount wallet args) w s).2 ≠ [] → valid).
Proof.
  intros valid max. subst valid max. split; [|split].
  - destruct (run _ w s) as [r st'] eqn:Hrun. cbn [snd].
    unfold handleBuyAmountInput, getQuote in Hrun.
    destruct args as [input|]; exec in Hrun;
      [|rewrite orb_true_r in Hrun; injection Hrun as <- <-; cbn [st_log]; congruence].
    destruct (isValidAmount input) eqn:Hvalid; [intros _; by exists input|].
    explore Hrun; injection Hrun as <- <-; cbn [st_log]; congruence.
  - destruct (run _ w s) as [r st'] eqn:Hrun. cbn [snd].
    unfold handleSellAmountInput in Hrun.
    destruct args as [input|]; exec in Hrun;
      [|rewrite orb_true_r in Hrun; injection Hrun as <- <-; cbn [st_log]; congruence].
    destruct (isValidAmount input) eqn:Hvalid; [intros _; left; by exists input|].
    destruct (String.eqb (toLowerCase input) "max") eqn:Hmax;
      [intros _; right; exists input; split; [done|by apply String.eqb_eq]|].
    explore Hrun; injection Hrun as <- <-; cbn [st_log]; congruence.
  - destruct (run _ w s) as [r st'] eqn:Hrun. cbn [snd].
    unfold handleWithdrawAmount in Hrun.
    destruct args as [input|]; exec in Hrun;
      [|rewrite orb_true_r in Hrun; injection Hrun as <- <-; cbn [st_log]; congruence].
    destruct (isValidAmount input) eqn:Hvalid; [intros _; by exists input|].
    explore Hrun; injection Hrun as <- <-; cbn [st_log]; congruence.
Qed.

(** X7. The balance check of the Sell amount step, for an entered amount of
    [a] base units against a stored balance of [b]: more than the balance is
    refused with the session untouched and no call made; anything up to the
    balance, the whole balance included, goes on to the quote step with the
    amount's decimal string. *)
Theorem sell_amount_balance_check (w : World) (wallet : option WalletData)
    (s : Session) (input : string) (a b : Z) :
  truthy_str (userId s) = true →
  toLowerCase input ≠ "max" →
  isValidAmount input = true →
  parseUnits (lead_zero input) (temp s "fromDecimals") = Some a →
  BigInt_of (temp s "tokenBalance") = Some b →
  let result := run (handleSellAmountInput wallet (Some input)) w s in
  (b < a →
     result.2 = {| st_session := s; st_log := [] |} ∧
     (result.1 = Some (say "❌ An error occurred. Please try again later.") ∨
      ∃ shown, formatUnits (VBig b) (temp s "fromDecimals") = Some shown ∧
        result.1 = Some (say ("❌ Insufficient balance. You only have " +:+ shown
          +:+ " " +:+ show_val (temp s "fromSymbol") +:+ " available." +:+ nl +:+ nl
          +:+ "Please enter a smaller amount or type /cancel to abort.")))) ∧
  (a ≤ b →
     result = run (handleSellAmountLogic wallet (VStr (BigInt_toString a))) w s).
Proof.
  intros Huser Hmax Hvalid Ha Hb result. subst result.
  apply String.eqb_neq in Hmax.
  pose proof (valid_amount_truthy input Hvalid) as Harg.
  destruct (run (handleSellAmountInput wallet (Some input)) w s) as [r st'] eqn:Hrun.
  cbn [fst snd]. unfold handleSellAmountInput in Hrun. exec in Hrun.
  rewrite Huser, Harg in Hrun. exec in Hrun. rewrite Hmax, Hvalid in Hrun.
  exec in Hrun. rewrite Ha in Hrun. exec in Hrun.
  rewrite BigInt_roundtrip in Hrun. exec in Hrun. rewrite Hb in Hrun. exec in Hrun.
  split; intros Hcmp.
  - apply Z.ltb_lt in Hcmp. rewrite Hcmp in Hrun.
    destruct (formatUnits (VBig b) (temp s "fromDecimals")) as [shown|];
      exec in Hrun; injection Hrun as <- <-.
    + split; [reflexivity|right]. exists shown. split; reflexivity.
    + split; [reflexivity|by left].
  - apply Z.ltb_ge in Hcmp. rewrite Hcmp in Hrun.
    destruct (handleSellAmountLogic_returns wallet (VStr (BigInt_toString a)) w
                {| st_session := s; st_log := [] |}) as (r0 & st0 & Hlogic).
    unfold run. rewrite Hlogic in Hrun |- *. by symmetry.
Qed.

(** *** Amount entry: what a confirmation finds in the session *)

Lemma getGasParams_price (priority : string) (w : World) (st st' : St)
    (gp : GasParams) :
  getGasParams priority w st = (Some gp, st') → price gp = maxFeePerGas gp.
Proof.
  unfold getGasParams. exec.
  destruct (w_estimateFeesPerGas w _) as [[maxFee tip]|]; [|by intros [= <- _]].
  destruct (formatUnits maxFee (VNum 9)) as [fee|]; exec; [|by intros [= <- _]].
  destruct (formatUnits tip (VNum 9)); exec; by intros [= <- _].
Qed.

Lemma temp_gasPrice (u : string) (a : option string) (m : gmap string val)
    (o : option UserSettings) (x y z : val) :
  temp {| userId := u; currentAction := a;
          tempData := <["maxPriorityFeePerGas" := x]>
                        (<["maxFeePerGas" := y]> (<["gasPrice" := z]> m));
          settings := o |} "gasPrice" = z.
Proof. unfold temp. cbn [tempData]. by simplify_map_eq. Qed.

(** X8. The Buy amount step moves a session to [buy_confirm] only together
    with everything the confirmation needs: the input passed validation,
    the fee estimate was followed by a quote for the amount as typed, and
    [tempData] is the old one extended by the amount in wei, the three gas
    fields (the gas price being the maximal fee) and the quoted amount and
    gas. *)
Theorem buy_confirm_state_is_quoted (w : World) (wallet : option WalletData)
    (s : Session) (args : option string) :
  currentAction s ≠ Some "buy_confirm" →
  let result := run (handleBuyAmountInput wallet args) w s in
  currentAction (st_session result.2) = Some "buy_confirm" →
  ∃ input a gp q ok,
    args = Some input ∧ isValidAmount input = true ∧
    parseEther (lead_zero input) = Some a ∧
    price gp = maxFeePerGas gp ∧
    let ask := GetQuote (temp s "fromToken") (temp s "toToken") (lead_zero input)
                        (VStr (price gp)) in
    w_getQuote w [EstimateFeesPerGas; ask] = Some (Some q) ∧
    st_log result.2 = [Ev EstimateFeesPerGas ok; Ev ask true] ∧
    tempData (st_session result.2) =
      <["estimatedGas" := VStr (estimatedGas q)]>
        (<["toAmount" := VStr (outAmount q)]>
          (<["maxPriorityFeePerGas" := VStr (maxPriorityFeePerGas gp)]>
            (<["maxFeePerGas" := VStr (maxFeePerGas gp)]>
              (<["gasPrice" := VStr (price gp)]>
                (<["fromAmount" := VStr (BigInt_toString a)]> (tempData s)))))).
Proof.
  intros Hne result. subst result.
  destruct (run _ w s) as [r st'] eqn:Hrun. cbn [snd].
  unfold handleBuyAmountInput, getQuote in Hrun.
  destruct args as [input|]; exec in Hrun;
    [|rewrite orb_true_r in Hrun; by injection Hrun as <- <-].
  repeat (exec in Hrun;
          first [ match type of Hrun with
                  | context [getGasParams ?p ?w ?st] =>
                      destruct (getGasParams_run p w st) as (gp & ok & Hgas & _);
                      pose proof (getGasParams_price _ _ _ _ _ Hgas) as Hprice;
                      cbn [st_session st_log] in Hgas; rewrite Hgas in Hrun; clear Hgas
                  end
                | split_option Hrun | split_val Hrun | split_bool Hrun ]);
    rewrite ?temp_gasPrice in *;
    injection Hrun as <- <-; cbn [st_session currentAction]; intros Hact;
    try discriminate Hact; try (by destruct Hne).
  match goal with
  | H : negb (isValidAmount input) = false |- _ => apply negb_false_iff in H
  end.
  eexists input, _, gp, _, ok. repeat split; try eassumption; reflexivity.
Qed.

Ltac use_gas_price H :=
  match type of H with
  | context [getGasParams ?p ?w ?st] =>
      let gp := fresh "gp" in
      let ok := fresh "ok" in
      let Hg := fresh "Hgas" in
      let Hp := fresh "Hprice" in
      destruct (getGasParams_run p w st) as (gp & ok & Hg & _);
      pose proof (getGasParams_price _ _ _ _ _ Hg) as Hp;
      cbn [st_session st_log] in Hg; rewrite Hg in H; clear Hg
  end.

Ltac explore_priced H :=
  repeat (exec in H;
          first [use_gas_price H | split_option H | split_val H | split_bool H]);
  rewrite ?temp_gasPrice in *.

(** X9. The quote step of Sell moves a session to [sell_confirm] only
    together with a quote: the amount in base units was rendered in the
    token's decimals, the quote was asked for that rendering after the fee
    estimate, and [tempData] is the old one extended by the amount, the
    three gas fields and the quoted amount and gas. *)
Theorem sell_confirm_state_is_quoted (w : World) (wallet : option WalletData)
    (s : Session) (v : val) :
  currentAction s ≠ Some "sell_confirm" →
  let result := run (handleSellAmountLogic wallet v) w s in
  currentAction (st_session result.2) = Some "sell_confirm" →
  ∃ units amount gp q ok,
    BigInt_of v = Some units ∧
    formatUnits (VBig units) (temp s "fromDecimals") = Some amount ∧
    price gp = maxFeePerGas gp ∧
    let ask := GetQuote (temp s "fromToken") (temp s "toToken") amount
                        (VStr (price gp)) in
    w_getQuote w [EstimateFeesPerGas; ask] = Some (Some q) ∧
    st_log result.2 = [Ev EstimateFeesPerGas ok; Ev ask true] ∧
    tempData (st_session result.2) =
      <["estimatedGas" := VStr (estimatedGas q)]>
        (<["toAmount" := VStr (outAmount q)]>
          (<["maxPriorityFeePerGas" := VStr (maxPriorityFeePerGas gp)]>
            (<["maxFeePerGas" := VStr (maxFeePerGas gp)]>
              (<["gasPrice" := VStr (price gp)]>
                (<["fromAmount" := v]> (tempData s)))))).
Proof.
  intros Hne result. subst result.
  destruct (run _ w s) as [r st'] eqn:Hrun. cbn [snd].
  unfold handleSellAmountLogic, getQuote in Hrun.
  explore_priced Hrun;
    injection Hrun as <- <-; cbn [st_session currentAction]; intros Hact;
    try discriminate Hact; try (by destruct Hne);
    eexists _, _, gp, _, ok; repeat split; try eassumption; reflexivity.
Qed.

(** X10. When the quote cannot be had at the Sell quote step (the service
    rejects the request or answers without data), the flow is kept: the
    answer is the quote error, [currentAction] is what it was,
    and [tempData] already holds the amount and the gas fields written
    before the request. *)
Theorem sell_quote_failure_keeps_flow (w : World) (wl : WalletData) (s : Session)
    (v : val) (units : Z) (amount : string) :
  BigInt_of v = Some units →
  formatUnits (VBig units) (temp s "fromDecimals") = Some amount →
  (∀ log, w_getQuote w log = None ∨ w_getQuote w log = Some None) →
  let result := run (handleSellAmountLogic (Some wl) v) w s in
  ∃ gp,
    result.1 = Some (say "❌ An error occurred while getting the quote. Please try again later.") ∧
    currentAction (st_session result.2) = currentAction s ∧
    tempData (st_session result.2) =
      <["maxPriorityFeePerGas" := VStr (maxPriorityFeePerGas gp)]>
        (<["maxFeePerGas" := VStr (maxFeePerGas gp)]>
          (<["gasPrice" := VStr (price gp)]>
            (<["fromAmount" := v]> (tempData s)))) ∧
    count_calls reaches_handler (st_log result.2) = 1%nat.
Proof.
  intros Hunits Hamount Hquote result. subst result.
  destruct (run _ w s) as [r st'] eqn:Hrun. cbn [fst snd].
  unfold handleSellAmountLogic, getQuote in Hrun. exec in Hrun.
  use_gas Hrun. exec in Hrun. rewrite Hunits in Hrun. exec in Hrun.
  rewrite Hamount in Hrun. exec in Hrun.
  match type of Hrun with
  | context [w_getQuote w ?l] => destruct (Hquote l) as [Hq|Hq]; rewrite Hq in Hrun
  end; exec in Hrun; injection Hrun as <- <-; exists gp;
    (split; [reflexivity|split; [reflexivity|split; [reflexivity|]]]);
    cbn [st_log]; vm_compute; reflexivity.
Qed.

(** *** index.ts: what the dispatchers let through *)

(** X11. Text that is not a command, received while the current action is
    one the action route has no case for ([buy_confirm], [sell_confirm],
    [withdraw_confirm], [buy_token], ...), is answered with "Unknown command
    or action" followed by the name of that action; no handler runs and the
    session and the log stay as they were. *)
Theorem free_text_outside_text_states (w : World) (wallet : option WalletData)
    (s : Session) (log : list event) (action state : string) :
  currentAction s = Some state →
  state ≠ EmptyString →
  startsWith action "/" = false →
  state ∉ action_cases →
  let st := {| st_session := s; st_log := log |} in
  api_action wallet action w st
    = (Some (say ("Unknown command or action: " +:+ state)), st).
Proof.
  intros Hact Hstate Hslash Hcase st. subst st.
  assert (Hno : ∀ c, c ∈ action_cases → String.eqb state c = false).
  { intros c Hc. apply String.eqb_neq. by intros ->. }
  apply String.eqb_neq in Hstate.
  unfold api_action. exec. rewrite Hact, Hslash. unfold truthy_arg, truthy_str.
  rewrite Hstate. exec.
  rewrite !Hno
    by (unfold action_cases;
        repeat first [apply list_elem_of_here | apply list_elem_of_further]).
  reflexivity.
Qed.

(** X12. The callbacks [confirm_yes] and [confirm_no] act only at
    [buy_confirm], [sell_confirm] and [export_wallet]: at any other current
    action, idle included, they are answered "Invalid confirmation state."
    and nothing is called or changed. *)
Theorem confirm_callbacks_need_their_state (w : World) (wallet : option WalletData)
    (s : Session) (log : list event) (callback : string) :
  callback = "confirm_yes" ∨ callback = "confirm_no" →
  currentAction s ∉ [Some "buy_confirm"; Some "sell_confirm"; Some "export_wallet"] →
  let st := {| st_session := s; st_log := log |} in
  api_callback wallet callback w st = (Some (say "Invalid confirmation state."), st).
Proof.
  intros Hcb Hstate st. subst st.
  assert (Hno : ∀ a, a ∈ [Some "buy_confirm"; Some "sell_confirm"; Some "export_wallet"] →
                     currentAction s ≠ a)
    by (intros a Ha Heq; apply Hstate; by rewrite Heq).
  pose proof (Hno _ (list_elem_of_here _ _)) as Hbuy.
  pose proof (Hno _ (list_elem_of_further _ _ _ (list_elem_of_here _ _))) as Hsell.
  pose proof (Hno _ (list_elem_of_further _ _ _
                       (list_elem_of_further _ _ _ (list_elem_of_here _ _)))) as Hexport.
  destruct Hcb as [-> | ->]; unfold api_callback; exec;
    rewrite !bool_decide_eq_false_2 by assumption; reflexivity.
Qed.

(** X13. The Withdraw confirmation is not tied to a state: every callback
    that begins with [withdraw_confirm_] runs it, whatever the current
    action is, and confirms exactly when the rest is [true]; any other
    suffix declines. *)
Theorem withdraw_callback_ignores_state (w : World) (wallet : option WalletData)
    (st : St) (suffix : string) :
  api_callback wallet ("withdraw_confirm_" +:+ suffix) w st
    = handleWithdrawConfirmation wallet (String.eqb suffix "true") w st.
Proof.
  unfold api_callback. exec.
  set (callback := "withdraw_confirm_" +:+ suffix).
  change (startsWith callback "sell_token_") with false.
  change (existsb _ _) with false.
  change (String.eqb callback "confirm_yes") with false.
  change (String.eqb callback "confirm_no") with false.
  assert (startsWith callback "withdraw_confirm_" = true) as -> by (by destruct suffix).
  change (String.eqb callback "withdraw_confirm_true") with (String.eqb suffix "true").
  reflexivity.
Qed.

Lemma try_catch_replies {A : Type} (body handler : M A) (w : World) (st : St) :
  (∀ st', is_Some (handler w st').1) → is_Some (try_catch body handler w st).1.
Proof.
  intros Hh. unfold try_catch. destruct (body w st) as [[a|] st']; [by eexists|apply Hh].
Qed.

(** X14. Neither dispatcher is ever left without a result to send: if the
    handlers outside this development always answer, every action and every
    callback, in every state, ends with a reply and not with an exception
    or an undefined result. *)
Theorem dispatchers_always_reply (w : World) (wallet : option WalletData) (st : St)
    (input : string) :
  (∀ name wl args w' st', is_Some (otherHandler name wl args w' st').1) →
  is_Some (api_action wallet input w st).1 ∧
  is_Some (api_callback wallet input w st).1.
Proof.
  intros Hother. split.
  - unfold api_action. exec.
    repeat match goal with
           | |- context [if ?b then _ else _] => destruct b
           end;
      first [ apply Hother
            | apply try_catch_replies; intros; exec; by eexists
            | exec; by eexists ].
  - unfold api_callback. exec.
    repeat match goal with
           | |- context [if ?b then _ else _] => destruct b
           end;
      first [ apply Hother
            | apply try_catch_replies; intros; exec; by eexists
            | exec; by eexists ].
Qed.

(** *** commands/withdraw.ts: from the command to the transfer *)

Lemma BigInt_toString_truthy (z : Z) : truthy_str (BigInt_toString z) = true.
Proof.
  unfold truthy_str, BigInt_toString.
  destruct z as [|p|p]; cbn; [reflexivity| |reflexivity].
  by destruct (Pos.to_uint p).
Qed.

(** X15. The Withdraw command opens the flow only for a wallet whose
    balance read was answered with a positive amount; it then replaces
    [tempData] by the sender and that balance.  A rejected balance read is
    treated as an empty wallet: the command is refused and the session is
    left as it was. *)
Theorem withdraw_starts_only_with_funds (w : World) (wallet : option WalletData)
    (s : Session) :
  let result := run (withdrawHandler wallet) w s in
  (currentAction s ≠ Some "withdraw_address" →
   currentAction (st_session result.2) = Some "withdraw_address" →
   ∃ wl b, wallet = Some wl ∧ truthy_str (userId s) = true ∧
           chain_getBalance (address wl) = Some b ∧ 0 < b ∧
           tempData (st_session result.2) =
             {[ "from" := VStr (address wl);
                "balance" := VStr (BigInt_toString b) ]}) ∧
  (∀ wl, wallet = Some wl → truthy_str (userId s) = true →
         chain_getBalance (address wl) = None →
         result = (Some (say "❌ Your wallet has no ETH balance to withdraw."),
                   {| st_session := s; st_log := [] |})).
Proof.
  intros result. subst result. split.
  - intros Hne. destruct (run _ w s) as [r st'] eqn:Hrun. cbn [snd].
    unfold withdrawHandler, getEthBalance in Hrun. exec in Hrun.
    destruct (truthy_str (userId s)) eqn:Huser; exec in Hrun;
      [|injection Hrun as <- <-; intros Hact; by destruct Hne].
    destruct wallet as [wl|]; exec in Hrun;
      [|injection Hrun as <- <-; intros Hact; by destruct Hne].
    destruct (chain_getBalance (address wl)) as [b|] eqn:Hchain.
    + rewrite BigInt_roundtrip in Hrun. exec in Hrun.
      destruct (b <=? 0) eqn:Hpos;
        [injection Hrun as <- <-; intros Hact; by destruct Hne|].
      apply Z.leb_gt in Hpos. intros _. exists wl, b.
      destruct (formatEthBalance _); exec in Hrun; injection Hrun as <- <-;
        repeat split; first [reflexivity | lia | assumption].
    + rewrite BigInt_zero in Hrun. exec in Hrun. cbn in Hrun.
      injection Hrun as <- <-. intros Hact. by destruct Hne.
  - intros wl -> Huser Hchain.
    unfold withdrawHandler, getEthBalance. exec.
    rewrite Huser, Hchain. exec. rewrite BigInt_zero. exec. reflexivity.
Qed.

(** X16. The address step of Withdraw goes on to the amount step only for
    text that [isAddress] accepts, in a session that still holds a string
    balance; it then adds the recipient to [tempData] and touches nothing
    else.  Otherwise [tempData] is left as it was, also when the step gives
    up because the balance is missing. *)
Theorem withdraw_address_step (w : World) (wallet : option WalletData) (s : Session)
    (args : option string) :
  let result := run (handleWithdrawAddress wallet args) w s in
  let s' := st_session result.2 in
  (currentAction s ≠ Some "withdraw_amount" →
   currentAction s' = Some "withdraw_amount" →
   ∃ toAddress balance,
     args = Some toAddress ∧ isAddress toAddress = true ∧
     truthy_str toAddress = true ∧
     tempData s !! "balance" = Some (VStr balance) ∧
     tempData s' = <["to" := VStr toAddress]> (tempData s)) ∧
  (currentAction s' ≠ Some "withdraw_amount" → tempData s' = tempData s) ∧
  st_log result.2 = [].
Proof.
  intros result s'. subst s' result.
  destruct (run _ w s) as [r st'] eqn:Hrun. cbn [snd].
  unfold handleWithdrawAddress, isValidAddress in Hrun.
  destruct args as [toAddress|]; exec in Hrun;
    [|rewrite orb_true_r in Hrun; injection Hrun as <- <-; cbn [st_session st_log];
      repeat split; intros; done].
  unfold truthy_arg in Hrun.
  explore Hrun; injection Hrun as <- <-; cbn [st_session st_log currentAction tempData];
    (split; [intros Hne Hact; try discriminate Hact; try (by destruct Hne)
            |split; [intros Hact; try reflexivity; by destruct Hact|reflexivity]]).
  all: match goal with
       | H : negb (isAddress _) = false |- _ => apply negb_false_iff in H
       end.
  all: match goal with
       | H : negb (truthy_str _) || negb (truthy_str _) = false |- _ =>
           apply orb_false_iff in H as [_ H]; apply negb_false_iff in H
       end.
  all: by eexists _, _.
Qed.

Lemma getGasParams_any_session (priority : string) (w : World) (s s' : Session)
    (log : list event) :
  (getGasParams priority w {| st_session := s; st_log := log |}).1
  = (getGasParams priority w {| st_session := s'; st_log := log |}).1.
Proof.
  unfold getGasParams. exec.
  destruct (w_estimateFeesPerGas w _) as [[maxFee tip]|]; [|reflexivity].
  destruct (formatUnits maxFee (VNum 9)); exec; [|reflexivity].
  by destruct (formatUnits tip (VNum 9)).
Qed.

(** X17. The four steps of Withdraw, run one after the other on a funded
    wallet, end in the transfer the user described: the confirmation's first
    call submits a transaction to the address entered at the second step,
    with the amount entered at the third as its value, in wei, and the two
    fees computed at the third step; and that amount plus 21000 times the
    maximal fee is less than the balance read at the first step. *)
Theorem withdraw_flow_sends_what_was_entered (w1 w2 w3 w4 : World) (wl : WalletData)
    (s0 : Session) (toAddress input : string) (a b f tip : Z) (gp : GasParams) :
  truthy_str (userId s0) = true →
  truthy_str (address wl) = true →
  chain_getBalance (address wl) = Some b →
  0 < b →
  truthy_str toAddress = true →
  isAddress toAddress = true →
  isValidAmount input = true →
  parseEther (lead_zero input) = Some a →
  (run (getGasParams (settings_gasPriority s0)) w3 s0).1 = Some gp →
  parseGwei (maxFeePerGas gp) = Some f →
  parseGwei (maxPriorityFeePerGas gp) = Some tip →
  a ≤ b →
  a + 21000 * f < b →
  let s1 := st_session (run (withdrawHandler (Some wl)) w1 s0).2 in
  let s2 := st_session (run (handleWithdrawAddress (Some wl) (Some toAddress)) w2 s1).2 in
  let s3 := st_session (run (handleWithdrawAmount (Some wl) (Some input)) w3 s2).2 in
  let result := run (handleWithdrawConfirmation (Some wl) true) w4 s3 in
  currentAction s3 = Some "withdraw_confirm" ∧
  ∃ ok rest,
    st_log result.2 =
      Ev (SendTransaction (VStr toAddress) None a
            [("maxFeePerGas", f); ("maxPriorityFeePerGas", tip)]) ok :: rest.
Proof.
  intros Huser Hwallet Hchain Hpos Hto Haddr Hvalid Ha Hgas Hf Htip Hle Hlt.
  pose (m1 := ({[ "from" := VStr (address wl);
                  "balance" := VStr (BigInt_toString b) ]} : gmap string val)).
  pose (m2 := <["to" := VStr toAddress]> m1).
  pose (m3 := <["maxPriorityFeePerGas" := VStr (BigInt_toString tip)]>
                (<["maxFeePerGas" := VStr (BigInt_toString f)]>
                   (<["amount" := VStr (BigInt_toString a)]> m2))).
  pose (at_step := λ (action : string) (m : gmap string val),
          {| userId := userId s0; currentAction := Some action; tempData := m;
             settings := settings s0 |}).
  assert (Hs1 : st_session (run (withdrawHandler (Some wl)) w1 s0).2
                = at_step "withdraw_address" m1).
  { unfold withdrawHandler, getEthBalance. exec. rewrite Huser, Hchain. exec.
    rewrite BigInt_roundtrip. exec.
    destruct (b <=? 0) eqn:Hb; [apply Z.leb_le in Hb; lia|].
    by destruct (formatEthBalance _). }
  assert (Hs2 : st_session
                  (run (handleWithdrawAddress (Some wl) (Some toAddress)) w2
                       (at_step "withdraw_address" m1)).2
                = at_step "withdraw_amount" m2).
  { unfold handleWithdrawAddress, isValidAddress, at_step. exec. unfold truthy_arg.
    rewrite Huser, Hto, Haddr. exec.
    replace (m1 !! "balance") with (Some (VStr (BigInt_toString b)))
      by (unfold m1; by simplify_map_eq).
    exec. by destruct (formatEthBalance _). }
  assert (Hs3 : st_session
                  (run (handleWithdrawAmount (Some wl) (Some input)) w3
                       (at_step "withdraw_amount" m2)).2
                = at_step "withdraw_confirm" m3).
  { destruct (run (handleWithdrawAmount _ _) w3 _) as [r st'] eqn:Hrun. cbn [snd].
    unfold handleWithdrawAmount, at_step in Hrun. exec in Hrun.
    rewrite Huser, (valid_amount_truthy input Hvalid) in Hrun. exec in Hrun.
    replace (m2 !! "balance") with (Some (VStr (BigInt_toString b))) in Hrun
      by (unfold m2, m1; by simplify_map_eq).
    replace (m2 !! "to") with (Some (VStr toAddress)) in Hrun
      by (unfold m2, m1; by simplify_map_eq).
    rewrite Hvalid, Ha in Hrun. exec in Hrun.
    rewrite !BigInt_roundtrip in Hrun. exec in Hrun.
    destruct (b <? a) eqn:Hba; [apply Z.ltb_lt in Hba; lia|].
    match type of Hrun with
    | context [getGasParams ?p w3 ?st] =>
        destruct (getGasParams_run p w3 st) as (gp' & ok & Hrun' & _);
        rewrite Hrun' in Hrun;
        change p with (settings_gasPriority s0) in Hrun';
        assert (gp' = gp) as ->
          by (unfold run in Hgas;
              rewrite (getGasParams_any_session _ _ s0 (st_session st)) in Hgas;
              cbn [st_session] in Hgas; rewrite Hrun' in Hgas; by injection Hgas)
    end.
    exec in Hrun. rewrite Hf in Hrun. exec in Hrun.
    destruct (b <=? a + f * 21000) eqn:Hbf; [apply Z.leb_le in Hbf; lia|].
    rewrite Htip in Hrun. exec in Hrun.
    destruct (formatWithdrawalConfirmation _ _); exec in Hrun;
      by injection Hrun as <- <-. }
  intros s1 s2 s3 result. subst s1 s2 s3 result.
  rewrite Hs1, Hs2, Hs3. clear Hs1 Hs2 Hs3. split; [reflexivity|].
  destruct (run (handleWithdrawConfirmation _ _) w4 _) as [r st'] eqn:Hrun. cbn [snd].
  unfold handleWithdrawConfirmation, withdrawEth, saveTransaction, at_step in Hrun.
  exec in Hrun. rewrite Huser in Hrun. exec in Hrun. unfold temp in Hrun.
  cbn [tempData] in Hrun.
  replace (m3 !! "from") with (Some (VStr (address wl))) in Hrun
    by (unfold m3, m2, m1; by simplify_map_eq).
  replace (m3 !! "to") with (Some (VStr toAddress)) in Hrun
    by (unfold m3, m2, m1; by simplify_map_eq).
  replace (m3 !! "amount") with (Some (VStr (BigInt_toString a))) in Hrun
    by (unfold m3, m2, m1; by simplify_map_eq).
  replace (m3 !! "maxFeePerGas") with (Some (VStr (BigInt_toString f))) in Hrun
    by (unfold m3, m2, m1; by simplify_map_eq).
  replace (m3 !! "maxPriorityFeePerGas") with (Some (VStr (BigInt_toString tip)))
    in Hrun by (unfold m3, m2, m1; by simplify_map_eq).
  cbn [default from_option id truthy BigInt_of] in Hrun.
  change (negb (String.eqb ?x EmptyString)) with (truthy_str x) in Hrun.
  rewrite Hwallet, Hto, !BigInt_toString_truthy, !BigInt_roundtrip in Hrun.
  explore Hrun; injection Hrun as <- <-; cbn [st_log app]; by eexists _, _.
Qed.

(** *** commands/buy.ts: from the command to the amount step *)

(** X18. The Buy command opens the flow only for a wallet whose balance
    read was answered with a positive amount, and then [tempData] is
    exactly the native token as the source, the wallet's address and that
    balance.  A rejected balance read is treated as an empty wallet. *)
Theorem buy_starts_only_with_funds (w : World) (wallet : option WalletData)
    (s : Session) :
  let result := run (buyHandler wallet) w s in
  (currentAction s ≠ Some "buy_token" →
   currentAction (st_session result.2) = Some "buy_token" →
   ∃ wl b, wallet = Some wl ∧ truthy_str (userId s) = true ∧
           chain_getBalance (address wl) = Some b ∧ 0 < b ∧
           tempData (st_session result.2) =
             {[ "fromToken" := VStr NATIVE_TOKEN_ADDRESS;
                "fromSymbol" := VStr "ETH";
                "fromDecimals" := VNum 18;
                "walletAddress" := VStr (address wl);
                "balance" := VStr (BigInt_toString b) ]}) ∧
  (∀ wl, wallet = Some wl → truthy_str (userId s) = true →
         chain_getBalance (address wl) = None →
         result = (Some no_eth_to_buy, {| st_session := s; st_log := [] |})).
Proof.
  intros result. subst result. split.
  - intros Hne. destruct (run _ w s) as [r st'] eqn:Hrun. cbn [snd].
    unfold buyHandler, getEthBalance in Hrun. exec in Hrun.
    destruct (truthy_str (userId s)) eqn:Huser; exec in Hrun;
      [|injection Hrun as <- <-; intros Hact; by destruct Hne].
    destruct wallet as [wl|]; exec in Hrun;
      [|injection Hrun as <- <-; intros Hact; by destruct Hne].
    destruct (chain_getBalance (address wl)) as [b|] eqn:Hchain.
    + rewrite BigInt_roundtrip in Hrun. exec in Hrun.
      destruct (b <=? 0) eqn:Hpos;
        [injection Hrun as <- <-; intros Hact; by destruct Hne|].
      apply Z.leb_gt in Hpos. intros _. exists wl, b.
      destruct (formatEthBalance _); exec in Hrun; injection Hrun as <- <-;
        repeat split; first [reflexivity | lia | assumption].
    + rewrite BigInt_zero in Hrun. exec in Hrun. cbn in Hrun.
      injection Hrun as <- <-. intros Hact. by destruct Hne.
  - intros wl -> Huser Hchain.
    unfold buyHandler, getEthBalance. exec.
    rewrite Huser, Hchain. exec. rewrite BigInt_zero. exec. reflexivity.
Qed.


(** X20. A token whose description comes back with zero decimals or with an
    empty symbol can be chosen but not bought: for a funded wallet whose
    balance can be shown, entering the token's address is accepted and
    moves the session to [buy_amount], and whatever is sent next to the
    amount step is answered "Invalid session state" with the flow reset and
    no provider called. *)
Theorem token_without_decimals_cannot_be_bought (w w' : World) (wl : WalletData)
    (wallet' : option WalletData) (s : Session) (input : string) (ti : TokenInfo)
    (b : Z) (args : option string) :
  truthy_str (userId s) = true →
  truthy_str input = true →
  getTokenInfo input = Some ti →
  ti_decimals ti = 0 ∨ ti_symbol ti = EmptyString →
  chain_getBalance (address wl) = Some b →
  0 < b →
  is_Some (formatEthBalance (VStr (BigInt_toString b))) →
  truthy_arg args = true →
  let s1 := st_session (run (handleCustomTokenInput (Some wl) (Some input)) w s).2 in
  currentAction s1 = Some "buy_amount" ∧
  run (handleBuyAmountInput wallet' args) w' s1
    = (Some (say "❌ Invalid session state. Please restart with /buy."),
       {| st_session := cancelled s; st_log := [] |}).
Proof.
  intros Huser Hinput Hinfo Hbad Hchain Hpos Hshown Hargs.
  assert (Haddr : isAddress input = true).
  { unfold getTokenInfo, isValidAddress in Hinfo. by destruct (isAddress input). }
  assert (Hs1 : st_session (run (handleCustomTokenInput (Some wl) (Some input)) w s).2 =
    {| userId := userId s; currentAction := Some "buy_amount";
       tempData :=
         <["toDecimals" := VNum (ti_decimals ti)]>
           (<["toSymbol" := VStr (ti_symbol ti)]>
              (<["toToken" := VStr (ti_address ti)]>
                 (<["fromDecimals" := VNum 18]>
                    (<["fromSymbol" := VStr "ETH"]>
                       (<["fromToken" := VStr NATIVE_TOKEN_ADDRESS]>
                          (<["balance" := VStr (BigInt_toString b)]>
                             (<["walletAddress" := VStr (address wl)]>
                                (tempData s))))))));
       settings := settings s |}).
  { unfold handleCustomTokenInput, isValidAddress, getEthBalance. exec.
    unfold truthy_arg. rewrite Huser, Hinput, Haddr, Hinfo. exec.
    rewrite Hchain, BigInt_roundtrip. exec.
    destruct (b <=? 0) eqn:Hb; [apply Z.leb_le in Hb; lia|].
    destruct Hshown as [shown ->]. exec. reflexivity. }
  intros s1. subst s1. rewrite Hs1. clear Hs1. split; [reflexivity|].
  unfold handleBuyAmountInput. exec. rewrite Huser, Hargs. exec.
  unfold temp. cbn [tempData].
  replace (_ !! "toDecimals") with (Some (VNum (ti_decimals ti)))
    by (by simplify_map_eq).
  replace (_ !! "toSymbol") with (Some (VStr (ti_symbol ti)))
    by (by simplify_map_eq).
  cbn [default from_option id truthy].
  destruct Hbad as [-> | ->]; cbn [Z.eqb String.eqb negb orb];
    rewrite ?orb_true_r; reflexivity.
Qed.

(** *** commands/import-export.ts and validators.ts: the private key *)

(** X21. What a confirmation of the key export can answer, and what it
    leaves behind: in every case the current action is emptied and
    [tempData] is kept, and no provider is called; the key is shown only on
    a confirmed request from a session with a user and a wallet whose stored
    key decrypts to a string that [isValidPrivateKey] accepts, and it is
    shown behind a literal 0x whether or not it already begins with one. *)
Theorem export_confirmation_outcomes (w : World) (wallet : option WalletData)
    (s : Session) (confirmed : bool) :
  let result := run (handleExportConfirmation wallet confirmed) w s in
  result.2 = {| st_session := {| userId := userId s; currentAction := None;
                                 tempData := tempData s; settings := settings s |};
                st_log := [] |} ∧
  (result.1 = Some (say "❌ Session or wallet not found.") ∨
   result.1 = Some (say "✅ Export cancelled.") ∨
   result.1 = Some (say "❌ An error occurred during export.") ∨
   ∃ wl privateKey,
     confirmed = true ∧ wallet = Some wl ∧ truthy_str (userId s) = true ∧
     verifyEncryptionKey = true ∧ decrypt wl = Some privateKey ∧
     isValidPrivateKey privateKey = true ∧
     result.1 = Some (say (key_text privateKey))).
Proof.
  intros result. subst result.
  destruct (run _ w s) as [r st'] eqn:Hrun. cbn [fst snd].
  unfold handleExportConfirmation, getPrivateKey in Hrun. exec in Hrun.
  destruct wallet as [wl|]; exec in Hrun; [|injection Hrun as <- <-; auto].
  destruct (truthy_str (userId s)) eqn:Huser; exec in Hrun;
    [|injection Hrun as <- <-; auto].
  destruct confirmed; exec in Hrun; [|injection Hrun as <- <-; auto].
  destruct verifyEncryptionKey eqn:Hverify; cbn [negb] in Hrun;
    [|injection Hrun as <- <-; auto].
  destruct (decrypt wl) as [privateKey|] eqn:Hdecrypt; cbn [mbind option_bind] in Hrun;
    [|injection Hrun as <- <-; auto].
  destruct (isValidPrivateKey privateKey) eqn:Hvalid; cbn [negb] in Hrun;
    injection Hrun as <- <-; [|auto].
  split; [reflexivity|]. do 3 right. by exists wl, privateKey.
Qed.

Lemma substring_all (s : string) : String.substring 0 (String.length s) s = s.
Proof. induction s as [|c s IH]; cbn; [reflexivity|by rewrite IH]. Qed.

Lemma hex64_no_prefix (body : string) :
  hex64_test body = true → startsWith body "0x" = false.
Proof.
  unfold hex64_test, startsWith. intros H.
  apply andb_true_iff in H as [Hlen H]. apply Nat.eqb_eq in Hlen.
  destruct body as [|c1 [|c2 rest]]; try discriminate Hlen.
  cbn [list_ascii_of_string forallb String.prefix] in *.
  apply andb_true_iff in H as [_ H]. apply andb_true_iff in H as [H _].
  destruct (ascii_dec "0" c1); [|reflexivity].
  destruct (ascii_dec "x" c2) as [<-|]; [|reflexivity].
  discriminate H.
Qed.

(** X22. [isValidPrivateKey] accepts exactly the strings of 64 hexadecimal
    digits and those strings behind one 0x: a single prefix is removed
    before the test, never two, and nothing else is trimmed. *)
Theorem isValidPrivateKey_spec (privateKey : string) :
  isValidPrivateKey privateKey = true ↔
  hex64_test privateKey = true ∨
  ∃ body, privateKey = "0x" +:+ body ∧ hex64_test body = true.
Proof.
  unfold isValidPrivateKey. split.
  - destruct (startsWith privateKey "0x") eqn:Hprefix; [|by left].
    intros Htest. right. exists (slice 2 privateKey). split; [|exact Htest].
    unfold startsWith in Hprefix.
    destruct privateKey as [|c1 [|c2 rest]]; cbn [String.prefix] in Hprefix;
      try discriminate Hprefix;
      (destruct (ascii_dec "0" c1) as [<-|]; [|discriminate Hprefix]);
      try discriminate Hprefix.
    destruct (ascii_dec "x" c2) as [<-|]; [|discriminate Hprefix].
    unfold slice. cbn [String.length]. replace (S (S (String.length rest)) - 2)%nat
      with (String.length rest) by lia.
    cbn [String.substring]. by rewrite substring_all.
  - intros [Htest | (body & -> & Htest)].
    + by rewrite (hex64_no_prefix _ Htest).
    + assert (startsWith ("0x" +:+ body) "0x" = true) as -> by (by destruct body).
      unfold slice. change ("0x" +:+ body) with (String "0" (String "x" body)).
      cbn [String.length].
      replace (S (S (String.length body)) - 2)%nat with (String.length body) by lia.
      cbn [String.substring]. by rewrite substring_all.
Qed.

(** X23. An approval that fails stops the sale: in any run of a Sell
    confirmation in which the approval was rejected, or was answered with a
    receipt whose status is not "success", no transaction is submitted and
    no record is written. *)
Theorem failed_approval_stops_the_sale (w : World) (wallet : option WalletData)
    (s : Session) (confirmed : bool) (i : nat) (c : call) (ok : bool) :
  let log := st_log (run (handleSellConfirmation wallet confirmed) w s).2 in
  log !! i = Some (Ev c ok) →
  is_approval c = true →
  (ok = false ∨
   ∃ receipt, w_writeContract w (map ev_call (take (S i) log)) = Some receipt ∧
              status receipt ≠ "success") →
  count_calls is_submission log = 0%nat ∧ count_calls is_record log = 0%nat.
Proof.
  intros log. subst log.
  destruct (run _ w s) as [r st'] eqn:Hrun. cbn [snd].
  unfold handleSellConfirmation, getSwap, getTokenAllowance, executeContractMethod,
    executeTransaction, saveTransaction in Hrun.
  explore Hrun; injection Hrun as <- <-; cbn [st_log app];
    intros Hev Happroval Hfailed;
    do 8 (try destruct i as [|i]); cbn in Hev;
    try discriminate Hev; injection Hev as <- <-;
    try discriminate Happroval;
    try (vm_compute; split; reflexivity);
    exfalso; destruct Hfailed as [Hfalse | (receipt & Hanswer & Hstatus)];
    try discriminate Hfalse;
    cbn [take map ev_call app] in Hanswer;
    match goal with
    | H : w_writeContract w _ = Some ?t |- _ =>
        cbn [map ev_call app] in H; rewrite H in Hanswer;
        injection Hanswer as <-
    end;
    match goal with
    | H : negb (String.eqb (status (normal_receipt _)) "success") = false |- _ =>
        apply negb_false_iff in H; unfold normal_receipt in H; cbn [status] in H;
        destruct (String.eqb (status _) "success") eqn:Hs in H;
        [apply String.eqb_eq in Hs; by destruct Hstatus | discriminate H]
    end.
Qed.

End Bot.

(** ** The handlers at concrete inputs *)

Lemma BigInt_decimal_roundtrip (z : Z) : BigInt_decimal (BigInt_toString z) = Some z.
Proof.
  unfold BigInt_decimal, BigInt_toString.
  rewrite NilZero.isi.
  - cbn. by rewrite DecimalZ.of_to.
  - destruct z; cbn; intros [= H]; by apply Unsigned.to_uint_nonnil in H.
  - destruct z; cbn; intros [= H]; by apply Unsigned.to_uint_nonnil in H.
Qed.

(** Doubles the model agrees on with the runtime: 0.1, 0.3, 2^53 + 1 (a
    tie, to even), the smallest subnormal, an overflow. *)
Example doubles :
  b64_of_ratio 1 10 = FFin 7205759403792794 (-56) ∧
  b64_of_ratio 3 10 = FFin 5404319552844595 (-54) ∧
  parseFloat "9007199254740993" = FFin 4503599627370496 1 ∧
  b64_of_ratio 5 (10 ^ 324) = FFin 1 (-1074) ∧
  b64_of_ratio (18 * 10 ^ 307) 1 = FInf.
Proof. vm_compute. repeat split; reflexivity. Qed.

Example amounts :
  map isValidAmount
      ["0.5"; ".5"; "5."; "05"; "0"; EmptyString; "1e5"; "-1"; "0.0";
       "0.0000000000000000001"; "12.000000000000000001"]
  = [true; true; false; false; false; false; false; false; false; false; true].
Proof. vm_compute. reflexivity. Qed.

Abbreviation withdraw_amount_at :=
  (handleWithdrawAmount BigInt_decimal viem_parseUnits viem_formatUnits
     exact_formatEthBalance plain_confirmation).
Abbreviation withdraw_confirm_at :=
  (handleWithdrawConfirmation BigInt_decimal exact_formatEthBalance native_address).
Abbreviation sell_amount_at :=
  (handleSellAmountInput BigInt_decimal viem_parseUnits viem_formatUnits
     exact_formatEthBalance plain_details).
Abbreviation sell_confirm_at :=
  (handleSellConfirmation BigInt_decimal viem_formatUnits exact_formatEthBalance
     native_address max_uint256).
Abbreviation buy_amount_at :=
  (handleBuyAmountInput BigInt_decimal viem_parseUnits viem_formatUnits
     exact_formatEthBalance plain_details).
Abbreviation buy_confirm_at := (handleBuyConfirmation BigInt_decimal viem_formatUnits).

(** The specification's Withdraw example: balance 100000000000000 wei, fee
    21000 * 1 gwei, the whole balance requested. *)
Lemma withdraw_full_balance_refused :
  let result :=
    run (withdraw_amount_at (Some a_wallet) (Some "0.0001"))
        (calm_world (Some 1000000000) None None "0" "success")
        (withdraw_entry "100000000000000") in
  currentAction (st_session result.2) = Some "withdraw_amount" ∧
  result.1 = Some (say "❌ Insufficient balance for amount + gas.").
Proof.
  destruct (withdraw_amount_checks BigInt_decimal viem_parseUnits viem_formatUnits
              exact_formatEthBalance plain_confirmation BigInt_decimal_roundtrip
              (calm_world (Some 1000000000) None None "0" "success") (Some a_wallet)
              (withdraw_entry "100000000000000") "0.0001" "100000000000000"
              "0x2222222222222222222222222222222222222222"
              100000000000000 100000000000000
              eq_refl eq_refl eq_refl eq_refl eq_refl eq_refl eq_refl)
    as (gp & st1 & Hgas & _ & _ & _ & Hfull).
  vm_compute in Hgas. injection Hgas as <- <-.
  exact (Hfull 1000000000 eq_refl eq_refl eq_refl).
Defined.

(** "MAX" with a balance of 27 digits: the flow's amount is the stored
    string, digit for digit. *)
Lemma sell_max_example :
  tempData
    (st_session
       (run (sell_amount_at (Some a_wallet) (Some "MAX"))
            (calm_world None None None "0" "success")
            (sell_entry "123456789012345678901234567")).2) !! "fromAmount"
  = Some (VStr "123456789012345678901234567").
Proof.
  exact (proj2 (sell_max_is_stored_balance BigInt_decimal viem_parseUnits
                  viem_formatUnits exact_formatEthBalance plain_details
                  (calm_world None None None "0" "success") a_wallet
                  (sell_entry "123456789012345678901234567") "MAX"
                  eq_refl eq_refl)).
Defined.

(** The allowance reader on the native token written in lower case, and a
    Sell confirmation whose allowance read is rejected. *)
Lemma allowance_read_example :
  getTokenAllowance native_address max_uint256
    "0xeeeeeeeeeeeeeeeeeeeeeeeeeeeeeeeeeeeeeeee" (address a_wallet) "0x6352"
    no_swap_world {| st_session := sell_confirming "500"; st_log := [] |}
  = (Some max_uint256, {| st_session := sell_confirming "500"; st_log := [] |}) ∧
  (getTokenAllowance native_address max_uint256 usdc (address a_wallet) "0x6352"
     no_swap_world {| st_session := sell_confirming "500"; st_log := [] |}).1
  = Some "0" ∧
  ∃ ok rest,
    st_log (run (sell_confirm_at (Some a_wallet) true)
                (calm_world None None (Some 1000) "500" "success")
                (sell_confirming "500")).2
    = Ev (swap_call (sell_confirming "500") "0.0005") true
      :: Ev (ReadContract usdc (address a_wallet) (sw_to (a_swap "500"))) false
      :: Ev (WriteContract usdc "approve" [sw_to (a_swap "500"); max_uint256]) ok
      :: rest.
Proof.
  destruct (allowance_read_contract BigInt_decimal viem_formatUnits
              exact_formatEthBalance native_address max_uint256
              BigInt_decimal_roundtrip) as [Hreader Hcaller].
  split; [|split].
  - refine (proj1 (Hreader no_swap_world _ _ _ _) _). reflexivity.
  - refine (f_equal fst (proj1 (proj2 (Hreader no_swap_world
              {| st_session := sell_confirming "500"; st_log := [] |}
              usdc (address a_wallet) "0x6352")) _ _)).
    + vm_compute. discriminate.
    + reflexivity.
  - refine (Hcaller (calm_world None None (Some 1000) "500" "success") a_wallet
              (sell_confirming "500") usdc "0.0005" 500 500 (a_swap "500")
              eq_refl eq_refl _ eq_refl eq_refl eq_refl eq_refl eq_refl _).
    + vm_compute. discriminate.
    + lia.
Defined.

(** C5 as stated fails on the fee estimate: at Withdraw amount entry the
    estimator is rejected, and the flow goes on to [withdraw_confirm] with
    the amount and the fallback fee in [tempData]. *)
Lemma gas_failure_keeps_flow :
  let result :=
    run (withdraw_amount_at (Some a_wallet) (Some "0.00001"))
        (calm_world None None None "0" "success")
        (withdraw_entry "100000000000000") in
  st_log result.2 = [Ev EstimateFeesPerGas false] ∧
  currentAction (st_session result.2) = Some "withdraw_confirm" ∧
  tempData (st_session result.2) !! "amount" = Some (VStr "10000000000000") ∧
  tempData (st_session result.2) !! "maxFeePerGas" = Some (VStr "100000000") ∧
  ¬ (currentAction (st_session result.2) = None ∧
     tempData (st_session result.2) = ∅).
Proof.
  cbv zeta.
  set (result := run _ _ _).
  assert (Hact : currentAction (st_session result.2) = Some "withdraw_confirm")
    by (vm_compute; reflexivity).
  split; [vm_compute; reflexivity|]. split; [exact Hact|].
  split; [vm_compute; reflexivity|]. split; [vm_compute; reflexivity|].
  intros [Hidle _]. rewrite Hact in Hidle. discriminate Hidle.
Qed.

(** A Buy confirmation whose swap service is down. *)
Lemma swap_failure_example :
  aborted (run (buy_confirm_at (Some a_wallet) true) no_swap_world buy_confirming)
          trade_error.
Proof.
  refine (proj1 (proj2 (provider_failure_aborts BigInt_decimal viem_parseUnits
            viem_formatUnits exact_formatEthBalance plain_details native_address
            max_uint256 no_swap_world (Some a_wallet) buy_confirming)) true _).
  vm_compute. reflexivity.
Defined.

(** *** Confirmations that received a receipt *)

(** C1 at Sell: the executor returns a receipt, with status failure or with
    status success, the record is written, and the session is still the one
    the handler started from: [currentAction] is [sell_confirm] and
    [tempData] holds the amounts.  (Buy and Withdraw clear both, see
    [buy_confirm_clears] and [withdraw_confirm_clears].) *)
Theorem sell_confirm_keeps_flow_after_receipt :
  let after st :=
    run (sell_confirm_at (Some a_wallet) true)
        (calm_world None (Some 1000) None "500" st) (sell_confirming "500") in
  let kept st :=
    count_calls is_submission (st_log (after st).2) = 1%nat ∧
    count_calls is_record (st_log (after st).2) = 1%nat ∧
    provider_failed (st_log (after st).2) = false ∧
    st_session (after st).2 = sell_confirming "500" ∧
    currentAction (st_session (after st).2) = Some "sell_confirm" ∧
    tempData (st_session (after st).2) !! "fromAmount" = Some (VStr "500") in
  kept "failure" ∧ kept "success".
Proof. split; vm_compute; repeat split; reflexivity. Qed.

(** The same receipts at Buy and at Withdraw. *)
Example buy_withdraw_receipts_clear :
  ∀ st, st = "failure" ∨ st = "success" →
    st_session (run (buy_confirm_at (Some a_wallet) true)
                    (calm_world None None None "0" st) buy_confirming).2
      = cancelled buy_confirming ∧
    st_session (run (withdraw_confirm_at (Some a_wallet) true)
                    (calm_world None None None "0" st) withdraw_confirming).2
      = cancelled withdraw_confirming.
Proof.
  intros st _. split.
  - exact (proj1 (buy_confirm_clears BigInt_decimal viem_formatUnits _ a_wallet
                    buy_confirming eq_refl)).
  - exact (proj1 (withdraw_confirm_clears BigInt_decimal exact_formatEthBalance
                    native_address _ a_wallet withdraw_confirming eq_refl eq_refl)).
Qed.

(** *** The approval steps of a Sell confirmation *)

(** The specification's two cases: allowance 0 against 500, one approval and
    then the swap; allowance 1000 against 500, no approval. *)
Example approval_when_short :
  let log :=
    st_log (run (sell_confirm_at (Some a_wallet) true)
                (calm_world None (Some 0) (Some (2 ^ 256 - 1)) "500" "success")
                (sell_confirming "500")).2 in
  map (λ e, (is_approval (ev_call e), is_submission (ev_call e))) log
    = [(false, false); (false, false); (true, false); (false, false);
       (false, true); (false, false)].
Proof. vm_compute. reflexivity. Qed.

Example no_approval_when_covered :
  let log :=
    st_log (run (sell_confirm_at (Some a_wallet) true)
                (calm_world None (Some 1000) None "500" "success")
                (sell_confirming "500")).2 in
  count_calls is_approval log = 0%nat ∧ count_calls is_submission log = 1%nat.
Proof. vm_compute. split; reflexivity. Qed.

Example no_swap_after_failed_approval :
  let result :=
    run (sell_confirm_at (Some a_wallet) true)
        {| w_estimateFeesPerGas := λ _, None;
           w_getQuote := λ _, None;
           w_getSwap := λ _, Some (a_swap "500");
           w_readContract := λ _, Some 0;
           w_writeContract := λ _, Some (a_receipt "reverted");
           w_sendTransaction := λ _, Some (a_receipt "success");
           w_saveTransaction := λ _, Some tt |}
        (sell_confirming "500") in
  count_calls is_approval (st_log result.2) = 1%nat ∧
  count_calls is_submission (st_log result.2) = 0%nat ∧
  result.1 = Some (say ("❌ Approval Failed" +:+ nl +:+ nl
                        +:+ "Unable to approve token spending." +:+ nl
                        +:+ "View on Block Explorer: https://basescan.org/tx/0xabc")).
Proof. vm_compute. repeat split; reflexivity. Qed.

(** C3, where the code departs from it.  The swap needs 500 ([inAmount]);
    the allowance is 0, the approval succeeds, and the allowance read again
    is 450, still short of 500.  The second comparison is made against the
    session's [fromAmount], here 400, so the handler goes on and submits the
    swap. *)
Theorem sell_confirm_recheck_against_session_amount :
  let result :=
    run (sell_confirm_at (Some a_wallet) true)
        (calm_world None (Some 0) (Some 450) "500" "success")
        (sell_confirming "400") in
  BigInt_decimal (sw_inAmount (a_swap "500")) = Some 500 ∧
  map (λ e, (is_approval (ev_call e), is_submission (ev_call e))) (st_log result.2)
    = [(false, false); (false, false); (true, false); (false, false);
       (false, true); (false, false)] ∧
  count_calls is_submission (st_log result.2) = 1%nat ∧
  result.1 ≠ Some (say "❌ Token approval failed. Please try again later.").
Proof. vm_compute. repeat split; try reflexivity. discriminate. Qed.

(** *** The balance check at Buy amount entry *)

(** C6 at Buy.  The check compares doubles.  With a balance of
    1000000000000000001 wei, an amount equal to the balance and an amount
    one wei above it read as the same double, so whatever string the
    formatter renders the balance as, the check gives both the same verdict:
    it is wrong on one of them. *)
Theorem buy_check_is_not_exact (shown : string) :
  let balance := 1000000000000000001 in
  viem_parseUnits "1.000000000000000001" (VNum 18) = Some balance ∧
  viem_parseUnits "1.000000000000000002" (VNum 18) = Some (balance + 1) ∧
  buy_exceeds_balance "1.000000000000000001" shown
    = buy_exceeds_balance "1.000000000000000002" shown ∧
  ¬ (buy_exceeds_balance "1.000000000000000001" shown = (balance <? balance) ∧
     buy_exceeds_balance "1.000000000000000002" shown = (balance <? balance + 1)).
Proof.
  assert (Hsame : parseFloat "1.000000000000000001" = parseFloat "1.000000000000000002")
    by (vm_compute; reflexivity).
  cbv zeta. split; [vm_compute; reflexivity|]. split; [vm_compute; reflexivity|].
  unfold buy_exceeds_balance. rewrite Hsame. split; [reflexivity|].
  intros [H1 H2]. rewrite H1 in H2. vm_compute in H2. discriminate H2.
Qed.

(** With a formatter that renders every digit of the balance, the amount one
    wei above the balance passes the check and the flow reaches
    [buy_confirm]. *)
Example buy_accepts_more_than_balance :
  let result :=
    run (buy_amount_at (Some a_wallet) (Some "1.000000000000000002"))
        (calm_world None None None "0" "success") (buy_entry "1000000000000000001") in
  currentAction (st_session result.2) = Some "buy_confirm" ∧
  tempData (st_session result.2) !! "fromAmount" = Some (VStr "1000000000000000002") ∧
  tempData (st_session result.2) !! "balance" = Some (VStr "1000000000000000001").
Proof. vm_compute. repeat split; reflexivity. Qed.

(** ** The further properties at concrete inputs *)



Lemma withdraw_submits_session_details_example :
  ∃ v fees,
    BigInt_of BigInt_decimal (temp withdraw_confirming "amount") = Some v ∧
    SendTransaction (VStr "0x2222222222222222222222222222222222222222") None
                    10000000000000
                    [("maxFeePerGas", 1000000000); ("maxPriorityFeePerGas", 100000000)]
    = SendTransaction (temp withdraw_confirming "to") None v fees.
Proof.
  refine (proj2 (proj2 (proj2 (proj2 (proj2 (proj2
            (withdraw_submits_session_details BigInt_decimal exact_formatEthBalance
               native_address (calm_world None None None "0" "success")
               (Some a_wallet) withdraw_confirming true 0 _ true _ _))))))).
  - vm_compute. reflexivity.
  - reflexivity.
Defined.

Lemma sell_approves_at_most_once_example :
  let log := st_log (run (sell_confirm_at (Some a_wallet) true)
                         (calm_world None (Some 0) (Some 0) "500" "success")
                         sell_native_confirming).2 in
  count_calls is_approval log = 0%nat ∧ count_calls is_allowance_read log = 0%nat.
Proof.
  refine (proj2 (proj2 (sell_approves_at_most_once BigInt_decimal viem_formatUnits
            exact_formatEthBalance native_address max_uint256
            (calm_world None (Some 0) (Some 0) "500" "success") (Some a_wallet)
            sell_native_confirming true))
          "0xeeeeeeeeeeeeeeeeeeeeeeeeeeeeeeeeeeeeeeee" _ _).
  - reflexivity.
  - vm_compute. reflexivity.
Defined.

(** A Buy whose transaction succeeded and was recorded is answered with the
    generic error. *)
Lemma buy_confirm_never_reports_success_example :
  trade_error = say "Trade cancelled." ∨
  trade_error = say "❌ Session expired. Please use /start to begin again." ∨
  trade_error = say "❌ Wallet not found. Please create or import a wallet first." ∨
  trade_error = trade_error ∨
  ∃ hash, trade_error = say (strip_backticks
                               ("❌ Transaction Failed" +:+ nl +:+ nl
                                +:+ "View on Block Explorer: https://basescan.org/tx/"
                                +:+ hash)).
Proof.
  apply (buy_confirm_never_reports_success BigInt_decimal viem_formatUnits
           (calm_world None None None "0" "success") (Some a_wallet)
           buy_confirming true trade_error).
  - reflexivity.
  - vm_compute. reflexivity.
Defined.

Lemma amount_entry_validates_before_calling_example :
  ∃ input, Some "0.5" = Some input ∧ isValidAmount input = true.
Proof.
  apply (proj1 (amount_entry_validates_before_calling BigInt_decimal viem_parseUnits
                  viem_formatUnits exact_formatEthBalance plain_details
                  plain_confirmation (calm_world None None None "0" "success")
                  (Some a_wallet) (buy_entry "2000000000000000000") (Some "0.5"))).
  vm_compute. discriminate.
Defined.

(** The whole balance of one USDC, entered as "1". *)
Lemma sell_amount_balance_check_example :
  run (sell_amount_at (Some a_wallet) (Some "1"))
      (calm_world None None None "0" "success") (sell_entry "1000000")
  = run (handleSellAmountLogic BigInt_decimal viem_formatUnits exact_formatEthBalance
           plain_details (Some a_wallet) (VStr "1000000"))
        (calm_world None None None "0" "success") (sell_entry "1000000").
Proof.
  refine (proj2 (sell_amount_balance_check BigInt_decimal viem_parseUnits
                   viem_formatUnits exact_formatEthBalance plain_details
                   BigInt_decimal_roundtrip
                   (calm_world None None None "0" "success") (Some a_wallet)
                   (sell_entry "1000000") "1" 1000000 1000000 _ _ _ _ _) _).
  - reflexivity.
  - vm_compute. discriminate.
  - vm_compute. reflexivity.
  - vm_compute. reflexivity.
  - vm_compute. reflexivity.
  - lia.
Defined.

Lemma buy_confirm_state_is_quoted_example :
  ∃ (input : string) (a : Z) (gp : GasParams) (q : QuoteData) (ok : bool),
    Some "0.5" = Some input ∧ isValidAmount input = true ∧
    parseEther viem_parseUnits (lead_zero input) = Some a ∧
    price gp = maxFeePerGas gp ∧
    let s := buy_entry "2000000000000000000" in
    let w := calm_world (Some 1000000000) None None "0" "success" in
    let result := run (buy_amount_at (Some a_wallet) (Some "0.5")) w s in
    let ask := GetQuote (temp s "fromToken") (temp s "toToken") (lead_zero input)
                        (VStr (price gp)) in
    w_getQuote w [EstimateFeesPerGas; ask] = Some (Some q) ∧
    st_log result.2 = [Ev EstimateFeesPerGas ok; Ev ask true] ∧
    tempData (st_session result.2) =
      <["estimatedGas" := VStr (estimatedGas q)]>
        (<["toAmount" := VStr (outAmount q)]>
          (<["maxPriorityFeePerGas" := VStr (maxPriorityFeePerGas gp)]>
            (<["maxFeePerGas" := VStr (maxFeePerGas gp)]>
              (<["gasPrice" := VStr (price gp)]>
                (<["fromAmount" := VStr (BigInt_toString a)]> (tempData s)))))).
Proof.
  apply (buy_confirm_state_is_quoted BigInt_decimal viem_parseUnits viem_formatUnits
           exact_formatEthBalance plain_details
           (calm_world (Some 1000000000) None None "0" "success") (Some a_wallet)
           (buy_entry "2000000000000000000") (Some "0.5")).
  - vm_compute. discriminate.
  - vm_compute. reflexivity.
Defined.

Lemma sell_confirm_state_is_quoted_example :
  ∃ (units : Z) (amount : string) (gp : GasParams) (q : QuoteData) (ok : bool),
    BigInt_of BigInt_decimal (VStr "500000") = Some units ∧
    viem_formatUnits (VBig units) (temp (sell_entry "1000000") "fromDecimals")
      = Some amount ∧
    price gp = maxFeePerGas gp ∧
    let s := sell_entry "1000000" in
    let w := calm_world (Some 1000000000) None None "0" "success" in
    let result := run (handleSellAmountLogic BigInt_decimal viem_formatUnits
                         exact_formatEthBalance plain_details (Some a_wallet)
                         (VStr "500000")) w s in
    let ask := GetQuote (temp s "fromToken") (temp s "toToken") amount
                        (VStr (price gp)) in
    w_getQuote w [EstimateFeesPerGas; ask] = Some (Some q) ∧
    st_log result.2 = [Ev EstimateFeesPerGas ok; Ev ask true] ∧
    tempData (st_session result.2) =
      <["estimatedGas" := VStr (estimatedGas q)]>
        (<["toAmount" := VStr (outAmount q)]>
          (<["maxPriorityFeePerGas" := VStr (maxPriorityFeePerGas gp)]>
            (<["maxFeePerGas" := VStr (maxFeePerGas gp)]>
              (<["gasPrice" := VStr (price gp)]>
                (<["fromAmount" := VStr "500000"]> (tempData s)))))).
Proof.
  apply (sell_confirm_state_is_quoted BigInt_decimal viem_formatUnits
           exact_formatEthBalance plain_details
           (calm_world (Some 1000000000) None None "0" "success") (Some a_wallet)
           (sell_entry "1000000") (VStr "500000")).
  - vm_compute. discriminate.
  - vm_compute. reflexivity.
Defined.

Lemma sell_quote_failure_keeps_flow_example :
  let result := run (handleSellAmountLogic BigInt_decimal viem_formatUnits
                       exact_formatEthBalance plain_details (Some a_wallet)
                       (VStr "500000")) no_swap_world (sell_entry "1000000") in
  ∃ gp,
    result.1 = Some (say "❌ An error occurred while getting the quote. Please try again later.") ∧
    currentAction (st_session result.2) = Some "sell_amount" ∧
    tempData (st_session result.2) =
      <["maxPriorityFeePerGas" := VStr (maxPriorityFeePerGas gp)]>
        (<["maxFeePerGas" := VStr (maxFeePerGas gp)]>
          (<["gasPrice" := VStr (price gp)]>
            (<["fromAmount" := VStr "500000"]> (tempData (sell_entry "1000000"))))) ∧
    count_calls reaches_handler (st_log result.2) = 1%nat.
Proof.
  apply (sell_quote_failure_keeps_flow BigInt_decimal viem_formatUnits
           exact_formatEthBalance plain_details no_swap_world a_wallet
           (sell_entry "1000000") (VStr "500000") 500000 "0.5").
  - reflexivity.
  - vm_compute. reflexivity.
  - intros log. left. reflexivity.
Defined.

Lemma free_text_outside_text_states_example :
  api_action BigInt_decimal viem_parseUnits viem_formatUnits exact_formatEthBalance
    plain_details plain_confirmation quiet_handler (Some a_wallet) "yes"
    (calm_world None None None "0" "success")
    {| st_session := buy_confirming; st_log := [] |}
  = (Some (say "Unknown command or action: buy_confirm"),
     {| st_session := buy_confirming; st_log := [] |}).
Proof.
  apply (free_text_outside_text_states BigInt_decimal viem_parseUnits
           viem_formatUnits exact_formatEthBalance plain_details plain_confirmation
           quiet_handler (calm_world None None None "0" "success") (Some a_wallet)
           buy_confirming [] "yes" "buy_confirm").
  - reflexivity.
  - discriminate.
  - reflexivity.
  - refine (bool_decide_unpack _ _). vm_compute. exact I.
Defined.

Lemma confirm_callbacks_need_their_state_example :
  api_callback BigInt_decimal viem_formatUnits exact_formatEthBalance native_address
    max_uint256 quiet_handler (Some a_wallet) "confirm_yes"
    (calm_world None None None "0" "success")
    {| st_session := withdraw_confirming; st_log := [] |}
  = (Some (say "Invalid confirmation state."),
     {| st_session := withdraw_confirming; st_log := [] |}).
Proof.
  apply (confirm_callbacks_need_their_state BigInt_decimal viem_formatUnits
           exact_formatEthBalance native_address max_uint256 quiet_handler
           (calm_world None None None "0" "success") (Some a_wallet)
           withdraw_confirming [] "confirm_yes").
  - left. reflexivity.
  - refine (bool_decide_unpack _ _). vm_compute. exact I.
Defined.

Lemma dispatchers_always_reply_example :
  is_Some (api_action BigInt_decimal viem_parseUnits viem_formatUnits
             exact_formatEthBalance plain_details plain_confirmation
             quiet_handler (Some a_wallet) "/wallet" no_swap_world
             {| st_session := idle_session; st_log := [] |}).1 ∧
  is_Some (api_callback BigInt_decimal viem_formatUnits exact_formatEthBalance
             native_address max_uint256 quiet_handler (Some a_wallet) "/wallet"
             no_swap_world {| st_session := idle_session; st_log := [] |}).1.
Proof.
  apply (dispatchers_always_reply BigInt_decimal viem_parseUnits viem_formatUnits
           exact_formatEthBalance plain_details plain_confirmation native_address
           max_uint256 quiet_handler).
  intros name wl args w' st'. vm_compute. eexists. reflexivity.
Defined.

Lemma withdraw_starts_only_with_funds_example :
  ∃ wl b,
    Some a_wallet = Some wl ∧ truthy_str (userId idle_session) = true ∧
    funded_chain 100000000000000 (address wl) = Some b ∧ 0 < b ∧
    tempData (st_session
                (run (withdrawHandler BigInt_decimal exact_formatEthBalance
                        (funded_chain 100000000000000) (Some a_wallet))
                     no_swap_world idle_session).2) =
      {[ "from" := VStr (address wl); "balance" := VStr (BigInt_toString b) ]}.
Proof.
  apply (proj1 (withdraw_starts_only_with_funds BigInt_decimal exact_formatEthBalance
                  (funded_chain 100000000000000) BigInt_decimal_roundtrip
                  no_swap_world (Some a_wallet) idle_session)).
  - discriminate.
  - vm_compute. reflexivity.
Defined.

Lemma withdraw_address_step_example :
  ∃ toAddress balance,
    Some "0x2222222222222222222222222222222222222222" = Some toAddress ∧
    plain_isAddress toAddress = true ∧ truthy_str toAddress = true ∧
    tempData withdraw_addressing !! "balance" = Some (VStr balance) ∧
    tempData (st_session
                (run (handleWithdrawAddress exact_formatEthBalance plain_isAddress
                        (Some a_wallet)
                        (Some "0x2222222222222222222222222222222222222222"))
                     no_swap_world withdraw_addressing).2) =
      <["to" := VStr toAddress]> (tempData withdraw_addressing).
Proof.
  apply (proj1 (withdraw_address_step exact_formatEthBalance plain_isAddress
                  no_swap_world (Some a_wallet) withdraw_addressing
                  (Some "0x2222222222222222222222222222222222222222"))).
  - discriminate.
  - vm_compute. reflexivity.
Defined.

(** A wallet with 0.0001 ETH, a fee of 1 gwei, 0.00001 ETH withdrawn. *)
Lemma withdraw_flow_example :
  let w := calm_world (Some 1000000000) None None "0" "success" in
  let chain := funded_chain 100000000000000 in
  let s1 := st_session
              (run (withdrawHandler BigInt_decimal exact_formatEthBalance chain
                      (Some a_wallet)) w idle_session).2 in
  let s2 := st_session
              (run (handleWithdrawAddress exact_formatEthBalance plain_isAddress
                      (Some a_wallet)
                      (Some "0x2222222222222222222222222222222222222222")) w s1).2 in
  let s3 := st_session (run (withdraw_amount_at (Some a_wallet) (Some "0.00001")) w s2).2 in
  let result := run (withdraw_confirm_at (Some a_wallet) true) w s3 in
  currentAction s3 = Some "withdraw_confirm" ∧
  ∃ ok rest,
    st_log result.2 =
      Ev (SendTransaction (VStr "0x2222222222222222222222222222222222222222") None
            10000000000000
            [("maxFeePerGas", 1000000000); ("maxPriorityFeePerGas", 100000000)]) ok
      :: rest.
Proof.
  apply (withdraw_flow_sends_what_was_entered BigInt_decimal viem_parseUnits
           viem_formatUnits exact_formatEthBalance plain_confirmation native_address
           (funded_chain 100000000000000) plain_isAddress BigInt_decimal_roundtrip
           (calm_world (Some 1000000000) None None "0" "success")
           (calm_world (Some 1000000000) None None "0" "success")
           (calm_world (Some 1000000000) None None "0" "success")
           (calm_world (Some 1000000000) None None "0" "success")
           a_wallet idle_session "0x2222222222222222222222222222222222222222"
           "0.00001" 10000000000000 100000000000000 1000000000 100000000
           {| price := "1"; maxFeePerGas := "1"; maxPriorityFeePerGas := "0.1" |}).
  - reflexivity.
  - reflexivity.
  - reflexivity.
  - lia.
  - reflexivity.
  - vm_compute. reflexivity.
  - vm_compute. reflexivity.
  - vm_compute. reflexivity.
  - vm_compute. reflexivity.
  - vm_compute. reflexivity.
  - vm_compute. reflexivity.
  - lia.
  - lia.
Defined.

Lemma buy_starts_only_with_funds_example :
  run (buyHandler BigInt_decimal exact_formatEthBalance native_address (λ _, None)
         (Some a_wallet)) no_swap_world idle_session
  = (Some no_eth_to_buy, {| st_session := idle_session; st_log := [] |}).
Proof.
  apply (proj2 (buy_starts_only_with_funds BigInt_decimal exact_formatEthBalance
                  native_address (λ _, None) BigInt_decimal_roundtrip
                  no_swap_world (Some a_wallet) idle_session) a_wallet).
  - reflexivity.
  - reflexivity.
  - reflexivity.
Defined.


Lemma token_without_decimals_example :
  let s1 :=
    st_session
      (run (handleCustomTokenInput BigInt_decimal exact_formatEthBalance native_address
              (funded_chain 100000000000000) (token_symbol_is "NFT")
              (token_decimals_are 0) plain_isAddress (Some a_wallet) (Some usdc))
           no_swap_world idle_session).2 in
  currentAction s1 = Some "buy_amount" ∧
  run (buy_amount_at (Some a_wallet) (Some "0.00001"))
      (calm_world None None None "0" "success") s1
  = (Some (say "❌ Invalid session state. Please restart with /buy."),
     {| st_session := cancelled idle_session; st_log := [] |}).
Proof.
  apply (token_without_decimals_cannot_be_bought BigInt_decimal viem_parseUnits
           viem_formatUnits exact_formatEthBalance plain_details native_address
           (funded_chain 100000000000000) (token_symbol_is "NFT")
           (token_decimals_are 0) plain_isAddress BigInt_decimal_roundtrip
           no_swap_world (calm_world None None None "0" "success") a_wallet
           (Some a_wallet) idle_session usdc
           {| ti_address := usdc; ti_symbol := "NFT"; ti_decimals := 0;
              ti_balance := "0" |}
           100000000000000 (Some "0.00001")).
  - reflexivity.
  - reflexivity.
  - vm_compute. reflexivity.
  - left. reflexivity.
  - reflexivity.
  - lia.
  - vm_compute. eexists. reflexivity.
  - reflexivity.
Defined.

Lemma failed_approval_example :
  let log := st_log (run (sell_confirm_at (Some a_wallet) true)
                         reverted_approval_world (sell_confirming "500")).2 in
  count_calls is_submission log = 0%nat ∧ count_calls is_record log = 0%nat.
Proof.
  refine (failed_approval_stops_the_sale BigInt_decimal viem_formatUnits
            exact_formatEthBalance native_address max_uint256
            reverted_approval_world (Some a_wallet) (sell_confirming "500") true
            2 _ true _ _ _).
  - vm_compute. reflexivity.
  - reflexivity.
  - right. exists (a_receipt "reverted"). split; [reflexivity|discriminate].
Defined.
